(** * OpenHands: the event base class and the long-term memory

    A shallow embedding of [openhands/events/event.py] and
    [openhands/memory/memory.py].  Python objects are attribute maps, Python
    exceptions are the [Raise] branch of a result type, and the worker threads
    of the memory are an interleaving step relation. *)

From Stdlib Require Import ZArith Lia Ascii DecimalString.
From Stdlib Require Import DecimalPos DecimalZ QArith.
From stdpp Require Import base option strings list gmap fin_maps.

Local Open Scope Z_scope.

(** ** Python values and exceptions *)

(** [class EventSource(str, Enum)] *)
Inductive EventSource : Type :=
  | AGENT
  | USER.

Definition EventSource_value (s : EventSource) : string :=
  match s with
  | AGENT => "agent"
  | USER => "user"
  end.

(** The values that the two files store in attributes and in event mappings.
    A [PDict] keeps its items in insertion order, as a Python dict does. *)
#[warnings="-register-all"]
Inductive pyval : Type :=
  | PNone
  | PBool (b : bool)
  | PInt (z : Z)
  | PStr (s : string)
  | PSource (e : EventSource)
  | PDatetime (instant : Z)
  | PList (items : list pyval)
  | PDict (items : list (string * pyval)).

(** The error classes of the embedding provider ([openai._exceptions]).
    [APITimeoutError] is a subclass of [APIConnectionError]. *)
Inductive provider_error : Type :=
  | RateLimitError
  | APIConnectionError
  | APITimeoutError
  | InternalServerError
  | AuthenticationError
  | BadRequestError.

Inductive exn : Type :=
  | AttributeError (name : string)
  | ImportError (msg : string)
  | ValueError (msg : string)
  | OpenAIError (e : provider_error)
  | RetryError (last_attempt : exn)
  | ValidationError (msg : string)
  | LibraryError (cls msg : string).

Inductive result (A : Type) : Type :=
  | Ok (a : A)
  | Raise (e : exn).
Arguments Ok {A} a.
Arguments Raise {A} e.

(** Sequencing: the first exception raised ends the computation. *)
#[global] Instance result_ret : MRet result := λ A a, Ok a.
#[global] Instance result_bind : MBind result := λ A B k r,
  match r with
  | Ok a => k a
  | Raise e => Raise e
  end.

(** ** [openhands/events/event.py] *)

Module Event.

(** An instance is the map of the data attributes that attribute lookup
    finds on it (its own and the defaults of its class). *)
Abbreviation instance := (gmap string pyval).

(** The properties [class Event] declares; only [timeout] has a setter. *)
Definition read_only_properties : list string :=
  ["message"; "id"; "timestamp"; "source"; "cause"]%string.

Definition properties : list string :=
  read_only_properties ++ ["timeout"]%string.

(** A property getter never raises here, so [hasattr] holds for each
    property name, and otherwise for the data attributes present. *)
Definition hasattr (self : instance) (name : string) : bool :=
  bool_decide (name ∈ properties) || bool_decide (is_Some (self !! name)).

(** Reading a data attribute; a missing one raises. *)
Definition getattr (self : instance) (name : string) : result pyval :=
  match self !! name with
  | Some v => Ok v
  | None => Raise (AttributeError name)
  end.

(** Assigning to an attribute other than [timeout]: a property without a
    setter refuses, any other name is stored on the instance. *)
Definition setattr (self : instance) (name : string) (v : pyval)
  : result instance :=
  if bool_decide (name ∈ read_only_properties)
  then Raise (AttributeError name)
  else Ok (<[name := v]> self).

Definition message (self : instance) : result pyval :=
  if hasattr self "_message" then getattr self "_message"
  else Ok (PStr "").

Definition id (self : instance) : result pyval :=
  if hasattr self "_id" then getattr self "_id"
  else Ok (PInt (-1)).

Definition timestamp (self : instance) : result pyval :=
  if hasattr self "_timestamp" then getattr self "_timestamp"
  else Ok PNone.

Definition source (self : instance) : result pyval :=
  if hasattr self "_source" then getattr self "_source"
  else Ok PNone.

Definition cause (self : instance) : result pyval :=
  if hasattr self "_cause" then getattr self "_cause"
  else Ok PNone.

Definition timeout (self : instance) : result pyval :=
  if hasattr self "_timeout" then getattr self "_timeout"
  else Ok PNone.

(** [@timeout.setter] *)
Definition timeout_setter (self : instance) (value : pyval)
  : result instance :=
  self ← setattr self "_timeout" value;
  if hasattr self "blocking"
  then setattr self "blocking" (PBool true)
  else Ok self.

End Event.

(** ** [openhands/memory/memory.py] *)

(** The embedding backends [EmbeddingsLoader] can construct, each with the
    arguments it is constructed with. *)
Inductive embed_model : Type :=
  | OllamaEmbedding (model_name : string) (base_url : option string)
      (mirostat : Z)
  | OpenAIEmbedding (model : string) (api_key : option string)
  | AzureOpenAIEmbedding (model : string) (deployment_name : option string)
      (api_key : option string) (azure_endpoint : option string)
      (api_version : option string)
  | HuggingFaceEmbedding (model_name : string).

(** What the module does to the outside world; a trace lists the effects
    in the order they happen.  [Sleep high seconds] is a sleep of [seconds],
    drawn at random from an interval that ends at [high]. *)
Inductive effect : Type :=
  | LoggerWarning (msg : string)
  | LoggerError (e : exn) (attempt_number : Z)
  | LoggerDebug (t : string) (idx : Z)
  | GetEmbeddings (attempt_number : Z)
  | Sleep (high : Z) (seconds : Q)
  | ChromadbClient (anonymized_telemetry : bool)
  | GetOrCreateCollection (name : string)
  | NewChromaVectorStore (collection : string)
  | FromVectorStore (collection : string) (model : option embed_model).

(** *** The [tenacity] decorator

    [call] is the loop of [Retrying.__call__]: attempt, and on an exception
    ask [retry]; a retried failure runs [after], then [stop] decides between
    raising and sleeping before the next attempt.  The loop itself is
    unbounded, so it runs on fuel. *)
Module Tenacity.

(** [wait] gives the end of the interval the sleep is drawn from, and the
    seconds drawn. *)
Record Retrying : Type := {
  reraise : bool;
  stop : Z → bool;
  wait : Z → Z * Q;
  retry : exn → bool;
  after : exn → Z → list effect
}.

Definition stop_after_attempt (max_attempt_number : Z) : Z → bool :=
  λ attempt_number, max_attempt_number <=? attempt_number.

(** [wait_exponential] with multiplier 1 and base 2. *)
Definition wait_exponential (min max : Z) : Z → Z :=
  λ attempt_number,
    Z.max (Z.max 0 min) (Z.min (2 ^ (attempt_number - 1)) max).

(** [random.uniform(a, b)] when [random.random()] returns [u]: the value
    [a + (b - a) * u], in exact arithmetic where the library has floats. *)
Definition uniform (a b : Z) (u : Q) : Q :=
  (inject_Z a + inject_Z (b - a) * u)%Q.

(** [wait_random_exponential]: [random.uniform(min, high)] with [high] the
    exponential wait; [random n] is what [random.random()] returns when the
    wait after attempt [n] is drawn. *)
Definition wait_random_exponential (random : Z → Q) (min max : Z)
  : Z → Z * Q :=
  λ attempt_number,
    let high := wait_exponential min max attempt_number in
    (high, uniform min high (random attempt_number)).

Fixpoint call {A : Type} (r : Retrying) (fn : Z → result A)
    (fuel : nat) (attempt_number : Z) : list effect * option (result A) :=
  match fuel with
  | O => ([], None)
  | S fuel =>
      match fn attempt_number with
      | Ok a => ([GetEmbeddings attempt_number], Some (Ok a))
      | Raise e =>
          if negb (retry r e)
          then ([GetEmbeddings attempt_number], Some (Raise e))
          else if stop r attempt_number
          then (GetEmbeddings attempt_number :: after r e attempt_number,
                Some (Raise (if reraise r then e else RetryError e)))
          else
            let '(tr, res) := call r fn fuel (attempt_number + 1) in
            (GetEmbeddings attempt_number :: after r e attempt_number
               ++ Sleep (wait r attempt_number).1 (wait r attempt_number).2
                    :: tr,
             res)
      end
  end.

End Tenacity.

(** *** Module level *)

(** What the interpreter finds when the module is imported, and how the
    world outside the module answers: the draws of the random generator, and
    for each library call whether it returns ([None]) or raises. *)
Record environment : Type := {
  has_chromadb : bool;
  has_llama_index_embeddings_openai : bool;
  has_llama_index_core : bool;
  has_llama_index_core_retrievers : bool;
  has_llama_index_vector_stores_chroma : bool;
  (** [hasattr(llama_openai.get_embeddings, '__wrapped__')] *)
  get_embeddings_is_wrapped : bool;
  has_llama_index_embeddings_ollama : bool;
  has_llama_index_embeddings_azure_openai : bool;
  has_llama_index_embeddings_huggingface : bool;
  (** [random.random()] when the wait after attempt [n] is drawn *)
  random_draw : Z → Q;
  chromadb_Client_raises : option exn;
  get_or_create_collection_raises : option exn;
  ChromaVectorStore_raises : option exn;
  (** the constructor of an embedding backend, by its arguments *)
  embedding_constructor_raises : embed_model → option exn;
  (** [VectorStoreIndex.from_vector_store], by the embed model given *)
  from_vector_store_raises : option embed_model → option exn
}.

(** The [try: import ... except ImportError] block. *)
Definition LLAMA_INDEX_AVAILABLE (env : environment) : bool :=
  has_chromadb env
  && has_llama_index_embeddings_openai env
  && has_llama_index_core env
  && has_llama_index_core_retrievers env
  && has_llama_index_vector_stores_chroma env.

Definition num_retries (env : environment) : Z :=
  if get_embeddings_is_wrapped env then 10 else 1.
Definition retry_min_wait : Z := 3.
Definition retry_max_wait : Z := 300.

Definition module_import (env : environment) : list effect :=
  if LLAMA_INDEX_AVAILABLE env
  then if get_embeddings_is_wrapped env then []
       else [LoggerWarning "Cannot set custom retry limits."]
  else [].

Definition attempt_on_error (e : exn) (attempt_number : Z) : list effect :=
  [LoggerError e attempt_number].

(** [isinstance(e, (RateLimitError, APIConnectionError, InternalServerError))] *)
Definition retry_if_exception_type (e : exn) : bool :=
  match e with
  | OpenAIError RateLimitError
  | OpenAIError APIConnectionError
  | OpenAIError APITimeoutError
  | OpenAIError InternalServerError => true
  | _ => false
  end.

Definition retry_policy (env : environment) : Tenacity.Retrying := {|
  Tenacity.reraise := true;
  Tenacity.stop := Tenacity.stop_after_attempt (num_retries env);
  Tenacity.wait :=
    Tenacity.wait_random_exponential (random_draw env) retry_min_wait
      retry_max_wait;
  Tenacity.retry := retry_if_exception_type;
  Tenacity.after := attempt_on_error
|}.

(** [original_get_embeddings] answers the call of attempt [n] with
    [original_get_embeddings n]; attempts are numbered from 1. *)
Definition wrapper_get_embeddings {A : Type} (env : environment)
    (original_get_embeddings : Z → result A) (fuel : nat)
  : list effect * option (result A) :=
  Tenacity.call (retry_policy env) original_get_embeddings fuel 1.

(** What a trace says: the attempts made, the bounds of the sleeps between
    them, and the seconds slept. *)
Definition attempts (tr : list effect) : list Z :=
  omap (λ e, match e with GetEmbeddings j => Some j | _ => None end) tr.

Definition sleeps (tr : list effect) : list Z :=
  omap (λ e, match e with Sleep high _ => Some high | _ => None end) tr.

Definition slept (tr : list effect) : list Q :=
  omap (λ e, match e with Sleep _ seconds => Some seconds | _ => None end) tr.

(** An outcome that ends the loop whatever the attempt number: a result, or
    an error that is not retried. *)
Definition final {A : Type} (r : result A) : Prop :=
  match r with
  | Ok _ => True
  | Raise e => retry_if_exception_type e = false
  end.

(** *** Configuration and the embedding loader *)

(** The fields of [LLMConfig] that this module reads. *)
Record LLMConfig : Type := {
  embedding_model : option string;
  embedding_base_url : option string;
  embedding_deployment_name : option string;
  api_key : option string;
  base_url : option string;
  api_version : option string
}.

Definition lower_ascii (c : ascii) : ascii :=
  let n := nat_of_ascii c in
  if (65 <=? n)%nat && (n <=? 90)%nat then ascii_of_nat (n + 32) else c.

(** [str.lower] on the letters A to Z. *)
Fixpoint lower (s : string) : string :=
  match s with
  | EmptyString => EmptyString
  | String c s => String (lower_ascii c) (lower s)
  end.

Definition supported_ollama_embed_models : list string :=
  ["llama2"; "mxbai-embed-large"; "nomic-embed-text"; "all-minilm";
   "stable-code"; "bge-m3"; "bge-large"; "paraphrase-multilingual";
   "snowflake-arctic-embed"]%string.

(** A function-level [from ... import ...]. *)
Definition import_module (present : bool) (name : string) : result unit :=
  if present then Ok () else Raise (ImportError name).

(** [strategy in names], where [strategy] may be [None]. *)
Definition strategy_in (strategy : option string) (names : list string)
  : bool :=
  match strategy with
  | Some s => bool_decide (s ∈ names)
  | None => false
  end.

(** Constructing a backend: the library's constructor validates its
    arguments and may raise. *)
Definition construct (env : environment) (m : embed_model)
  : result (option embed_model) :=
  match embedding_constructor_raises env m with
  | Some e => Raise e
  | None => Ok (Some m)
  end.

Definition get_embedding_model (env : environment) (strategy : option string)
    (llm_config : LLMConfig) : result (option embed_model) :=
  if strategy_in strategy supported_ollama_embed_models
  then
    _ ← import_module (has_llama_index_embeddings_ollama env)
          "llama_index.embeddings.ollama";
    construct env (OllamaEmbedding (default "" strategy)
                     (embedding_base_url llm_config) 0)
  else if bool_decide (strategy = Some "openai"%string)
  then
    _ ← import_module (has_llama_index_embeddings_openai env)
          "llama_index.embeddings.openai";
    construct env (OpenAIEmbedding "text-embedding-ada-002"
                     (api_key llm_config))
  else if bool_decide (strategy = Some "azureopenai"%string)
  then
    _ ← import_module (has_llama_index_embeddings_azure_openai env)
          "llama_index.embeddings.azure_openai";
    construct env (AzureOpenAIEmbedding "text-embedding-ada-002"
                     (embedding_deployment_name llm_config)
                     (api_key llm_config) (base_url llm_config)
                     (api_version llm_config))
  else if match strategy with
          | Some s => bool_decide (lower s = "none"%string)
          | None => false
          end
  then Ok None
  else
    _ ← import_module (has_llama_index_embeddings_huggingface env)
          "llama_index.embeddings.huggingface";
    construct env (HuggingFaceEmbedding "BAAI/bge-small-en-v1.5").

(** *** [class LongTermMemory] *)

(** An event mapping: the items of a dict, in insertion order. *)
Abbreviation event := (list (string * pyval)).

(** [key in d] and [d[key]] in one lookup. *)
Fixpoint dict_get (d : event) (key : string) : option pyval :=
  match d with
  | [] => None
  | (k, v) :: d => if decide (k = key) then Some v else dict_get d key
  end.

(** [str] of an integer. *)
Definition str (z : Z) : string := NilZero.string_of_int (Z.to_int z).

Record Document : Type := {
  text : string;
  doc_id : string;
  extra_info : list (string * pyval)
}.

(** The index handle: what it was built from, and the documents that
    [insert] has written, oldest first. *)
Record VectorStoreIndex : Type := {
  vector_store : string;
  index_embed_model : option embed_model;
  inserted : list Document
}.

Record NodeWithScore : Type := {
  node_id : string;
  get_text : string
}.

(** Where a worker thread stands in [_add_doc]: before the [with], inside
    it with [insert] running, leaving it after [insert] returned or raised,
    and done. *)
Inductive thread_pc : Type :=
  | Waiting
  | Inserting
  | Leaving (raised : option exn)
  | Terminated (raised : option exn).

Record Thread : Type := {
  args : Document;
  pc : thread_pc
}.

Record LongTermMemory : Type := {
  collection : string;
  index : VectorStoreIndex;
  sema : Z;
  thought_idx : Z;
  _add_threads : list Thread
}.

(** A call into a library: the effect is recorded, and the call either
    raises, which ends the constructor, or returns. *)
Definition library_call {A : Type} (tr : list effect) (eff : effect)
    (raises : option exn) (k : list effect → list effect * result A)
  : list effect * result A :=
  match raises with
  | Some e => (tr ++ [eff], Raise e)
  | None => k (tr ++ [eff])
  end.

Definition __init__ (env : environment) (llm_config : LLMConfig)
    (memory_max_threads : option Z) : list effect * result LongTermMemory :=
  let memory_max_threads := default 1 memory_max_threads in
  if negb (LLAMA_INDEX_AVAILABLE env)
  then ([], Raise (ImportError
    "llama_index and its dependencies are not installed. To use LongTermMemory, please run: poetry install --with llama-index"))
  else
    library_call [] (ChromadbClient false) (chromadb_Client_raises env)
    (λ tr,
    library_call tr (GetOrCreateCollection "memories")
      (get_or_create_collection_raises env)
    (λ tr,
    library_call tr (NewChromaVectorStore "memories")
      (ChromaVectorStore_raises env)
    (λ tr,
    let embedding_strategy := embedding_model llm_config in
    match get_embedding_model env embedding_strategy llm_config with
    | Raise e => (tr, Raise e)
    | Ok embed_model =>
        library_call tr (FromVectorStore "memories" embed_model)
          (from_vector_store_raises env embed_model)
        (λ tr,
        if memory_max_threads <? 0
        then (tr, Raise (ValueError "semaphore initial value must be >= 0"))
        else (tr, Ok {|
          collection := "memories";
          index := {| vector_store := "memories";
                      index_embed_model := embed_model;
                      inserted := [] |};
          sema := memory_max_threads;
          thought_idx := 0;
          _add_threads := []
        |}))
    end))).

Section Collaborators.

(** [openhands.core.utils.json.dumps]: the repository's serializer, which
    takes every value of [pyval]. *)
Variable dumps : pyval → string.

(** [VectorIndexRetriever(index, similarity_top_k).retrieve(query)] *)
Variable retrieve : VectorStoreIndex → Z → string → result (list NodeWithScore).

Definition add_event (self : LongTermMemory) (event : event)
  : list effect * LongTermMemory :=
  let id := PStr "" in
  let t := ""%string in
  let '(t, id) :=
    match dict_get event "action" with
    | Some v => ("action"%string, v)
    | None =>
        match dict_get event "observation" with
        | Some v => ("observation"%string, v)
        | None => (t, id)
        end
    end in
  let doc := {|
    text := dumps (PDict event);
    doc_id := str (thought_idx self);
    extra_info := [("type"%string, PStr t); ("id"%string, id);
                   ("idx"%string, PInt (thought_idx self))]
  |} in
  let thought_idx' := thought_idx self + 1 in
  let thread := {| args := doc; pc := Waiting |} in
  ([LoggerDebug t thought_idx'],
   {| collection := collection self;
      index := index self;
      sema := sema self;
      thought_idx := thought_idx';
      _add_threads := _add_threads self ++ [thread] |}).

Definition search (self : LongTermMemory) (query : string) (k : option Z)
  : result (list string) :=
  let k := default 10 k in
  match retrieve (index self) k query with
  | Ok results => Ok (get_text <$> results)
  | Raise e => Raise e
  end.

End Collaborators.

(** Field updates of the store. *)
Definition set_pc (self : LongTermMemory) (i : nat) (pc' : thread_pc)
  : LongTermMemory :=
  {| collection := collection self;
     index := index self;
     sema := sema self;
     thought_idx := thought_idx self;
     _add_threads :=
       alter (λ th, {| args := args th; pc := pc' |}) i (_add_threads self) |}.

Definition set_sema (self : LongTermMemory) (value : Z) : LongTermMemory :=
  {| collection := collection self;
     index := index self;
     sema := value;
     thought_idx := thought_idx self;
     _add_threads := _add_threads self |}.

Definition index_insert (self : LongTermMemory) (doc : Document)
  : LongTermMemory :=
  {| collection := collection self;
     index := {| vector_store := vector_store (index self);
                 index_embed_model := index_embed_model (index self);
                 inserted := inserted (index self) ++ [doc] |};
     sema := sema self;
     thought_idx := thought_idx self;
     _add_threads := _add_threads self |}.

(** [_add_doc] of worker [i], one step at a time.  Entering
    [with self.sema] takes a permit and is possible only while one is free;
    [index.insert] then returns or raises; leaving the block gives the
    permit back either way. *)
Definition _add_doc_enter (self : LongTermMemory) (i : nat)
  : option LongTermMemory :=
  th ← _add_threads self !! i;
  match pc th with
  | Waiting =>
      if 0 <? sema self
      then Some (set_pc (set_sema self (sema self - 1)) i Inserting)
      else None
  | _ => None
  end.

Definition _add_doc_insert (self : LongTermMemory) (i : nat)
    (raised : option exn) : option LongTermMemory :=
  th ← _add_threads self !! i;
  match pc th with
  | Inserting =>
      match raised with
      | None => Some (set_pc (index_insert self (args th)) i (Leaving None))
      | Some e => Some (set_pc self i (Leaving (Some e)))
      end
  | _ => None
  end.

Definition _add_doc_exit (self : LongTermMemory) (i : nat)
  : option LongTermMemory :=
  th ← _add_threads self !! i;
  match pc th with
  | Leaving raised =>
      Some (set_pc (set_sema self (sema self + 1)) i (Terminated raised))
  | _ => None
  end.

(** The moves of the caller and of the workers, interleaved in any order. *)
Inductive label : Type :=
  | CallAddEvent (ev : event)
  | Enter (i : nat)
  | Insert (i : nat) (raised : option exn)
  | Exit (i : nat).

Definition step (dumps : pyval → string) (self : LongTermMemory) (l : label)
  : option LongTermMemory :=
  match l with
  | CallAddEvent ev => Some (add_event dumps self ev).2
  | Enter i => _add_doc_enter self i
  | Insert i raised => _add_doc_insert self i raised
  | Exit i => _add_doc_exit self i
  end.

Fixpoint run (dumps : pyval → string) (self : LongTermMemory)
    (ls : list label) : option LongTermMemory :=
  match ls with
  | [] => Some self
  | l :: ls => self ← step dumps self l; run dumps self ls
  end.

(** The events passed to [add_event], in call order. *)
Definition calls (ls : list label) : list event :=
  omap (λ l, match l with CallAddEvent ev => Some ev | _ => None end) ls.

(** Workers inside the [with] block, and those with [insert] running. *)
Definition holds_permit (p : thread_pc) : bool :=
  match p with
  | Inserting | Leaving _ => true
  | _ => false
  end.

Definition is_inserting (p : thread_pc) : bool :=
  match p with
  | Inserting => true
  | _ => false
  end.

Definition count (P : thread_pc → bool) (l : list Thread) : nat :=
  length (filter (λ th, P (pc th) = true) l).

Definition permits_held (self : LongTermMemory) : nat :=
  count holds_permit (_add_threads self).

Definition writes_executing (self : LongTermMemory) : nat :=
  count is_inserting (_add_threads self).

(** The tag and the document of [add_event] as functions of the event and
    of the counter; [add_event_unfold] below shows they are what it builds. *)
Definition tag_of (ev : event) : string * pyval :=
  match dict_get ev "action" with
  | Some v => ("action"%string, v)
  | None =>
      match dict_get ev "observation" with
      | Some v => ("observation"%string, v)
      | None => (""%string, PStr "")
      end
  end.

Definition document_at (dumps : pyval → string) (idx : Z) (ev : event)
  : Document :=
  {| text := dumps (PDict ev);
     doc_id := str idx;
     extra_info := [("type"%string, PStr (tag_of ev).1);
                    ("id"%string, (tag_of ev).2);
                    ("idx"%string, PInt idx)] |}.

(** The two invariants of the interleaved runs: permits are conserved, and
    the documents are those of the calls so far, numbered from 0. *)
Definition permits_balanced (n : Z) (self : LongTermMemory) : Prop :=
  sema self + Z.of_nat (permits_held self) = n ∧ 0 ≤ sema self.

Definition numbered (dumps : pyval → string) (evs : list event)
    (self : LongTermMemory) : Prop :=
  thought_idx self = Z.of_nat (length evs)
  ∧ args <$> _add_threads self
    = imap (λ i ev, document_at dumps (Z.of_nat i) ev) evs.

(** *** Stand-ins for the collaborators, for closed instances *)

(** The store that [LongTermMemory(sample_config)] constructs. *)
Definition sample_store : LongTermMemory := {|
  collection := "memories";
  index := {| vector_store := "memories";
              index_embed_model :=
                Some (OpenAIEmbedding "text-embedding-ada-002"
                        (Some "sk-test"%string));
              inserted := [] |};
  sema := 1;
  thought_idx := 0;
  _add_threads := []
|}.

Definition run_command : event := [("action"%string, PStr "run_command")].
Definition output_ok : event := [("observation"%string, PStr "output: ok")].
Definition untagged : event := [("content"%string, PStr "hello")].

(** All three documents get written, the second call's first. *)
Definition sample_full_schedule : list label :=
  [CallAddEvent run_command; CallAddEvent output_ok; Enter 1;
   Insert 1 None; CallAddEvent untagged; Exit 1; Enter 0; Insert 0 None;
   Exit 0; Enter 2; Insert 2 None; Exit 2].

(** Three calls whose insertions finish out of call order. *)
Definition sample_schedule : list label :=
  [CallAddEvent run_command; CallAddEvent output_ok; Enter 1;
   Insert 1 None; CallAddEvent untagged; Exit 1; Enter 0].

Definition quote : string := String (ascii_of_nat 34) EmptyString.

(** JSON text of a value whose strings need no escaping; it takes the place
    of [dumps] where a closed instance needs a serializer. *)
Fixpoint dumps_plain (v : pyval) : string :=
  match v with
  | PNone => "null"
  | PBool true => "true"
  | PBool false => "false"
  | PInt z => str z
  | PStr s => quote +:+ s +:+ quote
  | PSource e => quote +:+ EventSource_value e +:+ quote
  | PDatetime instant => str instant
  | PList items =>
      "[" +:+ String.concat ", " (map dumps_plain items) +:+ "]"
  | PDict items =>
      "{" +:+ String.concat ", "
                (map (λ kv, quote +:+ kv.1 +:+ quote +:+ ": "
                              +:+ dumps_plain kv.2) items)
          +:+ "}"
  end.


(** A retriever that ranks the newest documents first. *)
Definition retrieve_newest (idx : VectorStoreIndex) (k : Z) (query : string)
  : result (list NodeWithScore) :=
  if k <? 0 then Raise (ValueError "similarity_top_k")
  else Ok ((λ d, {| node_id := doc_id d; get_text := text d |})
             <$> take (Z.to_nat k) (reverse (inserted idx))).

(** How the libraries answered when they were tried: the ollama
    constructor refuses a missing base url, the azure one a missing
    endpoint, and an index without an embed model falls back on a hosted
    model whose key is not set. *)
Definition sample_constructor_raises (m : embed_model) : option exn :=
  match m with
  | OllamaEmbedding _ None _ =>
      Some (ValidationError "base_url: Input should be a valid string")
  | AzureOpenAIEmbedding _ _ _ None _ =>
      Some (ValueError "Must specify azure_endpoint")
  | _ => None
  end.

Definition sample_from_vector_store_raises (m : option embed_model)
  : option exn :=
  match m with
  | None => Some (ValueError "No API key found for OpenAI")
  | Some _ => None
  end.

Definition sample_environment : environment := {|
  has_chromadb := true;
  has_llama_index_embeddings_openai := true;
  has_llama_index_core := true;
  has_llama_index_core_retrievers := true;
  has_llama_index_vector_stores_chroma := true;
  get_embeddings_is_wrapped := true;
  has_llama_index_embeddings_ollama := false;
  has_llama_index_embeddings_azure_openai := false;
  has_llama_index_embeddings_huggingface := true;
  random_draw := λ _, (1 # 2)%Q;
  chromadb_Client_raises := None;
  get_or_create_collection_raises := None;
  ChromaVectorStore_raises := None;
  embedding_constructor_raises := sample_constructor_raises;
  from_vector_store_raises := sample_from_vector_store_raises
|}.

(** A configuration for a locally served ollama model. *)
Definition ollama_config : LLMConfig := {|
  embedding_model := Some "bge-m3"%string;
  embedding_base_url := Some "http://localhost:11434"%string;
  embedding_deployment_name := None;
  api_key := None;
  base_url := None;
  api_version := None
|}.

Definition sample_config : LLMConfig := {|
  embedding_model := Some "openai"%string;
  embedding_base_url := None;
  embedding_deployment_name := None;
  api_key := Some "sk-test"%string;
  base_url := None;
  api_version := None
|}.

(** *** Readings used by the further properties *)

(** [ev.timeout = v] for each [v] of [vs] in turn, stopping at the first
    assignment that raises. *)
Fixpoint timeout_writes (self : Event.instance) (vs : list pyval)
  : result Event.instance :=
  match vs with
  | [] => Ok self
  | v :: vs => self ← Event.timeout_setter self v; timeout_writes self vs
  end.

(** The failures [attempt_on_error] has logged, and what attempt [j] of a
    provider [fn] contributes to them. *)
Definition logged (tr : list effect) : list (exn * Z) :=
  omap (λ e, match e with LoggerError e j => Some (e, j) | _ => None end) tr.

Definition retried_failure {A : Type} (fn : Z → result A) (j : Z)
  : option (exn * Z) :=
  match fn j with
  | Raise e => if retry_if_exception_type e then Some (e, j) else None
  | Ok _ => None
  end.

(** The steps a worker has still to take, and the worker steps of a
    schedule. *)
Definition steps_left (p : thread_pc) : Z :=
  match p with
  | Waiting => 3
  | Inserting => 2
  | Leaving _ => 1
  | Terminated _ => 0
  end.

Definition work_left (self : LongTermMemory) : Z :=
  foldr (λ th acc, steps_left (pc th) + acc) 0 (_add_threads self).

Definition is_worker_step (l : label) : bool :=
  match l with
  | CallAddEvent _ => false
  | _ => true
  end.

Definition worker_steps (ls : list label) : nat :=
  length (filter (λ l, is_worker_step l = true) ls).

(** Workers whose [insert] returned. *)
Definition has_written (p : thread_pc) : bool :=
  match p with
  | Leaving None | Terminated None => true
  | _ => false
  end.

Definition written_documents (self : LongTermMemory) : list Document :=
  args <$> filter (λ th, has_written (pc th) = true) (_add_threads self).

Definition index_is_written (s : LongTermMemory) : Prop :=
  inserted (index s) ≡ₚ written_documents s.

(** A store without permits: nothing written, every worker waiting. *)
Definition starved (s : LongTermMemory) : Prop :=
  sema s = 0 ∧ inserted (index s) = []
  ∧ Forall (λ th, pc th = Waiting) (_add_threads s).

(** The caller adds the events one at a time and lets each worker finish
    before the next call; [first] is the number of the first new thread. *)
Fixpoint serial_schedule (first : nat) (evs : list event) : list label :=
  match evs with
  | [] => []
  | ev :: evs =>
      [CallAddEvent ev; Enter first; Insert first None; Exit first]
        ++ serial_schedule (S first) evs
  end.

(** A call whose insertion fails at the provider. *)
Definition failing_schedule : list label :=
  [CallAddEvent run_command; Enter 0;
   Insert 0 (Some (OpenAIError RateLimitError)); Exit 0].

(** A provider that is always rate limited. *)
Definition throttled_provider (attempt_number : Z) : result (list Z) :=
  Raise (OpenAIError RateLimitError).

(** The library's own retry decorator could not be removed. *)
Definition unwrapped_environment : environment := {|
  has_chromadb := true;
  has_llama_index_embeddings_openai := true;
  has_llama_index_core := true;
  has_llama_index_core_retrievers := true;
  has_llama_index_vector_stores_chroma := true;
  get_embeddings_is_wrapped := false;
  has_llama_index_embeddings_ollama := true;
  has_llama_index_embeddings_azure_openai := true;
  has_llama_index_embeddings_huggingface := true;
  random_draw := λ _, (1 # 2)%Q;
  chromadb_Client_raises := None;
  get_or_create_collection_raises := None;
  ChromaVectorStore_raises := None;
  embedding_constructor_raises := sample_constructor_raises;
  from_vector_store_raises := sample_from_vector_store_raises
|}.

(** * Properties *)

Section EventProperties.
Import Event.

(** Decides that a literal attribute name is not one of the properties. *)
Ltac data_attr := by apply (bool_decide_unpack _); vm_compute.

Lemma hasattr_data (self : instance) (name : string) :
  name ∉ properties → hasattr self name = bool_decide (is_Some (self !! name)).
Proof.
  intros Hn. unfold hasattr. by rewrite (bool_decide_eq_false_2 _ Hn).
Qed.

Lemma accessor_data (self : instance) (name : string) (dflt : pyval) :
  name ∉ properties →
  (if hasattr self name then getattr self name else Ok dflt)
  = Ok (default dflt (self !! name)).
Proof.
  intros Hn. rewrite (hasattr_data _ _ Hn). unfold getattr.
  destruct (self !! name) as [v|]; [|done].
  by rewrite bool_decide_eq_true_2 by (by eexists).
Qed.

Lemma setattr_data (self : instance) (name : string) (v : pyval) :
  name ∉ properties → setattr self name v = Ok (<[name := v]> self).
Proof.
  intros Hn. unfold setattr. rewrite bool_decide_eq_false_2; [done|].
  intros Hin. apply Hn. unfold properties. apply elem_of_app. by left.
Qed.

(** An event that sets nothing, and a command action with its fields set. *)
Example accessors_of_bare_event :
  message ∅ = Ok (PStr "") ∧ id ∅ = Ok (PInt (-1))
  ∧ timestamp ∅ = Ok PNone ∧ source ∅ = Ok PNone
  ∧ cause ∅ = Ok PNone ∧ timeout ∅ = Ok PNone.
Proof. by vm_compute. Qed.

Example accessors_of_set_fields :
  let ev : instance :=
    {[ "_message" := PStr "Running command: ls"; "_id" := PInt 7;
       "_source" := PSource AGENT; "_cause" := PInt 6;
       "blocking" := PBool false ]} in
  message ev = Ok (PStr "Running command: ls") ∧ id ev = Ok (PInt 7)
  ∧ source ev = Ok (PSource AGENT) ∧ cause ev = Ok (PInt 6)
  ∧ timestamp ev = Ok PNone
  ∧ (ev' ← timeout_setter ev (PInt 30);
     b ← getattr ev' "blocking"; t ← timeout ev'; Ok (b, t))
    = Ok (PBool true, PInt 30).
Proof. by vm_compute. Qed.

Lemma timeout_setter_eq (self : instance) (value : pyval) :
  timeout_setter self value
  = Ok (if bool_decide (is_Some (self !! "blocking"))
        then <["blocking" := PBool true]> (<["_timeout" := value]> self)
        else <["_timeout" := value]> self).
Proof.
  unfold timeout_setter.
  rewrite setattr_data by data_attr. simpl.
  rewrite hasattr_data by data_attr.
  rewrite lookup_insert_ne by done.
  case_bool_decide; [|done].
  by rewrite setattr_data by data_attr.
Qed.

(** C7: each read accessor returns the stored value of its backing field
    when that field is set, and otherwise its default: the empty text for
    [message], -1 for [id], and [None] for [timestamp], [source], [cause]
    and [timeout].  ([default d (self !! f)] is the stored value when the
    field [f] is set and [d] when it is not.) *)
Theorem accessors_default_or_stored (self : instance) :
  message self = Ok (default (PStr "") (self !! "_message"))
  ∧ id self = Ok (default (PInt (-1)) (self !! "_id"))
  ∧ timestamp self = Ok (default PNone (self !! "_timestamp"))
  ∧ source self = Ok (default PNone (self !! "_source"))
  ∧ cause self = Ok (default PNone (self !! "_cause"))
  ∧ timeout self = Ok (default PNone (self !! "_timeout")).
Proof.
  repeat split; apply accessor_data; data_attr.
Qed.

(** C8: writing [timeout] raises nothing and stores the value; [blocking]
    becomes true exactly when the instance had a [blocking] attribute, and
    stays absent otherwise; every other attribute is unchanged. *)
Theorem timeout_setter_spec (self : instance) (value : pyval) :
  ∃ self' : instance,
    timeout_setter self value = Ok self'
    ∧ self' !! "_timeout" = Some value
    ∧ self' !! "blocking"
      = (if bool_decide (is_Some (self !! "blocking"))
         then Some (PBool true) else None)
    ∧ ∀ name : string,
        name ≠ "_timeout" → name ≠ "blocking" → self' !! name = self !! name.
Proof.
  eexists. split; [apply timeout_setter_eq|].
  case_bool_decide as Hb.
  - split; [by simplify_map_eq|]. split; [by simplify_map_eq|].
    intros name H1 H2. by simplify_map_eq.
  - split; [by simplify_map_eq|]. split.
    + rewrite lookup_insert_ne by done.
      destruct (self !! "blocking") eqn:E; [|done].
      exfalso. apply Hb. by eexists.
    + intros name H1 H2. by simplify_map_eq.
Qed.

(** C10: on an instance that has a [blocking] attribute, assigning [None]
    to [timeout] sets [blocking] to true, as assigning any other value does
    (the resulting [blocking] does not depend on the value stored), and the
    [timeout] accessor then returns [None]. *)
Theorem timeout_cleared_still_blocks (self : instance) (value : pyval) :
  is_Some (self !! "blocking") →
  ∃ cleared assigned : instance,
    timeout_setter self PNone = Ok cleared
    ∧ timeout_setter self value = Ok assigned
    ∧ cleared !! "blocking" = Some (PBool true)
    ∧ assigned !! "blocking" = Some (PBool true)
    ∧ timeout cleared = Ok PNone
    ∧ timeout assigned = Ok value.
Proof.
  intros Hb. do 2 eexists.
  split; [apply timeout_setter_eq|]. split; [apply timeout_setter_eq|].
  rewrite (bool_decide_eq_true_2 _ Hb).
  split; [by simplify_map_eq|]. split; [by simplify_map_eq|].
  split.
  - unfold timeout. rewrite accessor_data by data_attr.
    by simplify_map_eq.
  - unfold timeout. rewrite accessor_data by data_attr.
    by simplify_map_eq.
Qed.

(** A command action with [blocking = False] whose timeout is cleared. *)
Lemma timeout_cleared_still_blocks_witness :
  is_Some (({[ "blocking" := PBool false ]} : instance) !! "blocking")
  ∧ ∃ cleared assigned : instance,
      timeout_setter {[ "blocking" := PBool false ]} PNone = Ok cleared
      ∧ timeout_setter {[ "blocking" := PBool false ]} (PInt 120) = Ok assigned
      ∧ cleared !! "blocking" = Some (PBool true)
      ∧ assigned !! "blocking" = Some (PBool true)
      ∧ timeout cleared = Ok PNone
      ∧ timeout assigned = Ok (PInt 120).
Proof.
  split.
  - by eexists.
  - apply (timeout_cleared_still_blocks {[ "blocking" := PBool false ]} (PInt 120)).
    by eexists.
Defined.

End EventProperties.

Section MemoryProperties.

Variable dumps : pyval → string.

(** *** Counting threads by program point *)

Lemma count_cons (P : thread_pc → bool) (th : Thread) (l : list Thread) :
  count P (th :: l) = (Nat.b2n (P (pc th)) + count P l)%nat.
Proof.
  unfold count. rewrite filter_cons.
  destruct (decide (P (pc th) = true)) as [->|Hn]; [done|].
  by destruct (P (pc th)).
Qed.

Lemma count_app (P : thread_pc → bool) (l1 l2 : list Thread) :
  count P (l1 ++ l2) = (count P l1 + count P l2)%nat.
Proof. unfold count. by rewrite filter_app, length_app. Qed.

Lemma count_set_pc (P : thread_pc → bool) (pc' : thread_pc)
    (l : list Thread) (i : nat) (th : Thread) :
  l !! i = Some th →
  (count P (alter (λ th, {| args := args th; pc := pc' |}) i l)
     + Nat.b2n (P (pc th))
   = count P l + Nat.b2n (P pc'))%nat.
Proof.
  revert i. induction l as [|x l IH]; intros [|i] Hi; simplify_eq/=.
  - rewrite !count_cons. simpl. lia.
  - rewrite !count_cons. specialize (IH _ Hi). lia.
Qed.

Lemma count_le (P Q : thread_pc → bool) (l : list Thread) :
  (∀ p, P p = true → Q p = true) → (count P l ≤ count Q l)%nat.
Proof.
  intros HPQ. induction l as [|x l IH]; [done|].
  rewrite !count_cons. specialize (HPQ (pc x)).
  destruct (P (pc x)), (Q (pc x)); simpl; try lia;
    by specialize (HPQ eq_refl).
Qed.

Lemma add_event_unfold (self : LongTermMemory) (ev : event) :
  add_event dumps self ev
  = ([LoggerDebug (tag_of ev).1 (thought_idx self + 1)],
     {| collection := collection self;
        index := index self;
        sema := sema self;
        thought_idx := thought_idx self + 1;
        _add_threads :=
          _add_threads self
            ++ [{| args := document_at dumps (thought_idx self) ev;
                   pc := Waiting |}] |}).
Proof.
  unfold add_event, document_at, tag_of.
  destruct (dict_get ev "action"); [done|].
  by destruct (dict_get ev "observation").
Qed.

(** *** The permit invariant *)

Ltac step_inv Hstep Hth Hpc :=
  match type of Hstep with
  | context [_add_threads ?self !! ?i] =>
      destruct (_add_threads self !! i) as [th|] eqn:Hth;
      [simpl in Hstep; destruct (pc th) eqn:Hpc; try done | done]
  end.

Ltac count_moved Hth Hpc pc' :=
  let Hc := fresh "Hc" in
  pose proof (count_set_pc holds_permit pc' _ _ _ Hth) as Hc;
  rewrite Hpc in Hc; simpl in Hc.

Lemma step_permits_balanced (n : Z) (self self' : LongTermMemory)
    (l : label) :
  permits_balanced n self → step dumps self l = Some self' →
  permits_balanced n self'.
Proof.
  unfold permits_balanced, permits_held.
  intros [Hsum Hpos] Hstep. destruct l as [ev|i|i raised|i]; simpl in Hstep.
  - rewrite add_event_unfold in Hstep. simplify_eq. cbn [_add_threads sema snd].
    rewrite count_app, count_cons. cbn. split; [|done].
    by rewrite Nat.add_0_r.
  - unfold _add_doc_enter in Hstep. step_inv Hstep Hth Hpc.
    destruct (0 <? sema self) eqn:Hs; simplify_eq/=.
    apply Z.ltb_lt in Hs. count_moved Hth Hpc Inserting. lia.
  - unfold _add_doc_insert in Hstep. step_inv Hstep Hth Hpc.
    destruct raised as [e|]; simplify_eq/=.
    + count_moved Hth Hpc (Leaving (Some e)). lia.
    + count_moved Hth Hpc (Leaving None). lia.
  - unfold _add_doc_exit in Hstep. step_inv Hstep Hth Hpc.
    simplify_eq/=. count_moved Hth Hpc (Terminated raised). lia.
Qed.

Lemma run_permits_balanced (n : Z) (ls : list label)
    (self self' : LongTermMemory) :
  permits_balanced n self → run dumps self ls = Some self' →
  permits_balanced n self'.
Proof.
  revert self. induction ls as [|l ls IH]; intros self Hinv Hrun.
  - by simplify_eq/=.
  - simpl in Hrun.
    destruct (step dumps self l) as [mid|] eqn:Hstep; simplify_eq/=.
    eauto using step_permits_balanced.
Qed.

Lemma writes_hold_permits (self : LongTermMemory) :
  (writes_executing self ≤ permits_held self)%nat.
Proof.
  unfold writes_executing, permits_held. apply count_le.
  by intros [].
Qed.

Lemma init_fresh (env : environment) (cfg : LLMConfig) (n : option Z)
    (tr : list effect) (s0 : LongTermMemory) :
  __init__ env cfg n = (tr, Ok s0) →
  sema s0 = default 1 n ∧ 0 ≤ default 1 n ∧ thought_idx s0 = 0
  ∧ _add_threads s0 = [] ∧ inserted (index s0) = [].
Proof.
  unfold __init__, library_call. intros H.
  destruct (negb (LLAMA_INDEX_AVAILABLE env)); [done|].
  destruct (chromadb_Client_raises env); [done|].
  destruct (get_or_create_collection_raises env); [done|].
  destruct (ChromaVectorStore_raises env); [done|].
  destruct (get_embedding_model env _ cfg) as [m|]; [|done].
  destruct (from_vector_store_raises env m); [done|].
  destruct (default 1 n <? 0) eqn:Hn; simplify_eq/=.
  apply Z.ltb_ge in Hn. done.
Qed.

(** *** The numbering invariant *)

Lemma set_pc_args (l : list Thread) (i : nat) (pc' : thread_pc) :
  args <$> alter (λ th, {| args := args th; pc := pc' |}) i l = args <$> l.
Proof.
  rewrite (list_fmap_alter args _ (λ d, d)); [|by apply Forall_true].
  by apply list_alter_id.
Qed.

Lemma step_numbered (evs : list event) (self self' : LongTermMemory)
    (l : label) :
  numbered dumps evs self → step dumps self l = Some self' →
  numbered dumps (evs ++ calls [l]) self'.
Proof.
  unfold numbered. intros [Hidx Hdocs] Hstep.
  destruct l as [ev|i|i raised|i]; simpl in Hstep.
  - rewrite add_event_unfold in Hstep. simplify_eq.
    cbn [_add_threads thought_idx snd calls omap list_omap].
    rewrite length_app, fmap_app, imap_app, Hdocs, Hidx. simpl.
    split; [lia|]. by rewrite Nat.add_0_r.
  - unfold _add_doc_enter in Hstep. step_inv Hstep Hth Hpc.
    destruct (0 <? sema self); simplify_eq/=.
    by rewrite app_nil_r, set_pc_args.
  - unfold _add_doc_insert in Hstep. step_inv Hstep Hth Hpc.
    destruct raised; simplify_eq/=; by rewrite app_nil_r, set_pc_args.
  - unfold _add_doc_exit in Hstep. step_inv Hstep Hth Hpc.
    simplify_eq/=. by rewrite app_nil_r, set_pc_args.
Qed.

Lemma calls_cons (l : label) (ls : list label) :
  calls (l :: ls) = calls [l] ++ calls ls.
Proof. unfold calls. by destruct l. Qed.

Lemma run_numbered (ls : list label) (evs : list event)
    (self self' : LongTermMemory) :
  numbered dumps evs self → run dumps self ls = Some self' →
  numbered dumps (evs ++ calls ls) self'.
Proof.
  revert evs self. induction ls as [|l ls IH]; intros evs self Hinv Hrun.
  - simplify_eq/=. by rewrite app_nil_r.
  - simpl in Hrun.
    destruct (step dumps self l) as [mid|] eqn:Hstep; [|done].
    simpl in Hrun. rewrite calls_cons, app_assoc.
    eauto using step_numbered.
Qed.

(** C2: in every state that any interleaving of [add_event] calls and worker
    steps reaches from a freshly constructed store, the free permits and the
    workers inside [with self.sema] add up to the configured count, so the
    index writes in progress never exceed it (at most one for a count of 1);
    a worker writes only while it holds a permit, which it took on entering
    and gives back on leaving. *)
Theorem index_writes_within_permits (env : environment) (cfg : LLMConfig)
    (n : option Z) (tr : list effect) (s0 s : LongTermMemory)
    (ls : list label) :
  __init__ env cfg n = (tr, Ok s0) →
  run dumps s0 ls = Some s →
  sema s + Z.of_nat (permits_held s) = default 1 n
  ∧ 0 ≤ sema s
  ∧ (writes_executing s ≤ permits_held s)%nat
  ∧ Z.of_nat (writes_executing s) ≤ default 1 n
  ∧ (default 1 n = 1 → (writes_executing s ≤ 1)%nat)
  ∧ (∀ i s', _add_doc_enter s i = Some s' →
       0 < sema s ∧ sema s' = sema s - 1
       ∧ pc <$> _add_threads s' !! i = Some Inserting)
  ∧ (∀ i raised s', _add_doc_insert s i raised = Some s' →
       pc <$> _add_threads s !! i = Some Inserting ∧ sema s' = sema s)
  ∧ (∀ i s', _add_doc_exit s i = Some s' →
       sema s' = sema s + 1
       ∧ ∃ raised, pc <$> _add_threads s' !! i = Some (Terminated raised)).
Proof.
  intros Hinit Hrun.
  destruct (init_fresh _ _ _ _ _ Hinit) as (Hsema & Hn & _ & Hthreads & _).
  assert (permits_balanced (default 1 n) s0) as Hinv0.
  { unfold permits_balanced, permits_held. rewrite Hthreads, Hsema.
    split; [cbn; lia | done]. }
  destruct (run_permits_balanced _ _ _ _ Hinv0 Hrun) as [Hsum Hpos].
  pose proof (writes_hold_permits s) as Hle.
  split; [done|]. split; [done|]. split; [done|]. split; [lia|].
  split; [lia|]. split; [|split].
  - intros i s' Hstep. unfold _add_doc_enter in Hstep.
    step_inv Hstep Hth Hpc.
    destruct (0 <? sema s) eqn:Hs; simplify_eq/=.
    apply Z.ltb_lt in Hs. by rewrite list_lookup_alter_eq, Hth.
  - intros i raised s' Hstep. unfold _add_doc_insert in Hstep.
    step_inv Hstep Hth Hpc. split; [by rewrite <- Hpc|].
    by destruct raised; simplify_eq/=.
  - intros i s' Hstep. unfold _add_doc_exit in Hstep.
    step_inv Hstep Hth Hpc. simplify_eq/=. split; [done|].
    exists raised. by rewrite list_lookup_alter_eq, Hth.
Qed.

(** C3: whatever the interleaving with the workers, the documents of a
    freshly constructed store are, in call order, those of the [add_event]
    calls, the one of call number [i] (from 0) carrying the sequence index
    [i]; the counter started at 0 and stands at the number of calls. *)
Theorem sequence_indices_in_call_order (env : environment)
    (cfg : LLMConfig) (n : option Z) (tr : list effect)
    (s0 s : LongTermMemory) (ls : list label) :
  __init__ env cfg n = (tr, Ok s0) →
  run dumps s0 ls = Some s →
  thought_idx s0 = 0
  ∧ thought_idx s = Z.of_nat (length (calls ls))
  ∧ length (_add_threads s) = length (calls ls)
  ∧ ∀ (i : nat) (ev : event), calls ls !! i = Some ev →
      ∃ th, _add_threads s !! i = Some th
        ∧ text (args th) = dumps (PDict ev)
        ∧ doc_id (args th) = str (Z.of_nat i)
        ∧ dict_get (extra_info (args th)) "idx" = Some (PInt (Z.of_nat i)).
Proof.
  intros Hinit Hrun.
  destruct (init_fresh _ _ _ _ _ Hinit) as (_ & _ & Hidx & Hthreads & _).
  assert (numbered dumps [] s0) as Hinv0.
  { unfold numbered. by rewrite Hidx, Hthreads. }
  destruct (run_numbered _ _ _ _ Hinv0 Hrun) as [Hcount Hdocs].
  rewrite app_nil_l in Hcount, Hdocs.
  split; [done|]. split; [done|]. split.
  - by rewrite <- (length_fmap args), Hdocs, length_imap.
  - intros i ev Hev.
    pose proof (f_equal (.!! i) Hdocs) as Hi. simpl in Hi.
    rewrite list_lookup_fmap, list_lookup_imap, Hev in Hi.
    destruct (_add_threads s !! i) as [th|]; [|done].
    exists th. simpl in Hi. injection Hi as ->. done.
Qed.

(** C4, as the code has it: the kind tag is the NAME of the key found,
    ["action"] before ["observation"], and the source id is that key's value;
    with neither key both are the empty text. *)
Theorem add_event_kind_and_id (self : LongTermMemory) (ev : event) :
  ∃ doc,
    _add_threads (add_event dumps self ev).2
    = _add_threads self ++ [{| args := doc; pc := Waiting |}]
    ∧ (dict_get (extra_info doc) "type", dict_get (extra_info doc) "id")
      = match dict_get ev "action", dict_get ev "observation" with
        | Some v, _ => (Some (PStr "action"), Some v)
        | None, Some v => (Some (PStr "observation"), Some v)
        | None, None => (Some (PStr ""), Some (PStr ""))
        end.
Proof.
  rewrite add_event_unfold. eexists. split; [done|].
  unfold document_at, tag_of. simpl.
  destruct (dict_get ev "action"); [done|].
  by destruct (dict_get ev "observation").
Qed.

(** C5: every [add_event] appends exactly one document, whose body is the
    serialized mapping; on a fresh store the two calls of the example give
    the documents tagged (action, run_command, 0) and
    (observation, output: ok, 1). *)
Theorem add_event_builds_one_document (env : environment) (cfg : LLMConfig)
    (n : option Z) (tr : list effect) (s0 : LongTermMemory) :
  __init__ env cfg n = (tr, Ok s0) →
  (∀ self ev, ∃ doc,
     _add_threads (add_event dumps self ev).2
     = _add_threads self ++ [{| args := doc; pc := Waiting |}]
     ∧ text doc = dumps (PDict ev))
  ∧ args <$> _add_threads
      (add_event dumps
         (add_event dumps s0 [("action"%string, PStr "run_command")]).2
         [("observation"%string, PStr "output: ok")]).2
    = [ {| text := dumps (PDict [("action"%string, PStr "run_command")]);
           doc_id := "0";
           extra_info := [("type"%string, PStr "action");
                          ("id"%string, PStr "run_command");
                          ("idx"%string, PInt 0)] |};
        {| text := dumps (PDict [("observation"%string, PStr "output: ok")]);
           doc_id := "1";
           extra_info := [("type"%string, PStr "observation");
                          ("id"%string, PStr "output: ok");
                          ("idx"%string, PInt 1)] |} ].
Proof.
  intros Hinit.
  destruct (init_fresh _ _ _ _ _ Hinit) as (_ & _ & Hidx & Hthreads & _).
  split.
  - intros self ev. rewrite add_event_unfold. by eexists.
  - rewrite !add_event_unfold.
    cbn [_add_threads thought_idx snd]. by rewrite Hthreads, Hidx.
Qed.

End MemoryProperties.

Lemma sample_store_fresh :
  (__init__ sample_environment sample_config None).2 = Ok sample_store.
Proof. reflexivity. Qed.

(** With one permit, the second worker of [sample_schedule] writes while the
    first still waits. *)
Lemma index_writes_within_permits_witness :
  ∃ tr s,
    __init__ sample_environment sample_config None = (tr, Ok sample_store)
    ∧ run dumps_plain sample_store sample_schedule = Some s
    ∧ sema s + Z.of_nat (permits_held s) = 1
    ∧ (writes_executing s ≤ 1)%nat.
Proof.
  destruct (run dumps_plain sample_store sample_schedule) as [s|] eqn:Hrun;
    [|by vm_compute in Hrun].
  exists (__init__ sample_environment sample_config None).1, s.
  split; [reflexivity|]. split; [reflexivity|].
  destruct (index_writes_within_permits dumps_plain sample_environment
              sample_config None _ sample_store s sample_schedule
              eq_refl Hrun)
    as (Hsum & _ & _ & _ & Hone & _).
  split; [exact Hsum | exact (Hone eq_refl)].
Defined.

Lemma sequence_indices_in_call_order_witness :
  ∃ tr s,
    __init__ sample_environment sample_config None = (tr, Ok sample_store)
    ∧ run dumps_plain sample_store sample_schedule = Some s
    ∧ thought_idx s = 3
    ∧ ∃ th, _add_threads s !! 2%nat = Some th
        ∧ text (args th) = dumps_plain (PDict untagged)
        ∧ doc_id (args th) = "2"%string
        ∧ dict_get (extra_info (args th)) "idx" = Some (PInt 2).
Proof.
  destruct (run dumps_plain sample_store sample_schedule) as [s|] eqn:Hrun;
    [|by vm_compute in Hrun].
  exists (__init__ sample_environment sample_config None).1, s.
  split; [reflexivity|]. split; [reflexivity|].
  destruct (sequence_indices_in_call_order dumps_plain sample_environment
              sample_config None _ sample_store s sample_schedule
              eq_refl Hrun)
    as (_ & Hidx & _ & Hdocs).
  split; [exact Hidx|]. exact (Hdocs 2%nat untagged eq_refl).
Defined.

Lemma add_event_builds_one_document_witness :
  args <$> _add_threads
    (add_event dumps_plain
       (add_event dumps_plain sample_store
          [("action"%string, PStr "run_command")]).2
       [("observation"%string, PStr "output: ok")]).2
  = [ {| text := dumps_plain (PDict [("action"%string, PStr "run_command")]);
         doc_id := "0";
         extra_info := [("type"%string, PStr "action");
                        ("id"%string, PStr "run_command");
                        ("idx"%string, PInt 0)] |};
      {| text :=
           dumps_plain (PDict [("observation"%string, PStr "output: ok")]);
         doc_id := "1";
         extra_info := [("type"%string, PStr "observation");
                        ("id"%string, PStr "output: ok");
                        ("idx"%string, PInt 1)] |} ].
Proof.
  apply (add_event_builds_one_document dumps_plain sample_environment
           sample_config None
           (__init__ sample_environment sample_config None).1 sample_store).
  reflexivity.
Defined.

(** The claim C4 as worded fails: for the event with action "run_command"
    the source id is the key's value, but the kind tag is "action". *)
Lemma add_event_kind_is_not_the_key_value :
  ∃ doc,
    _add_threads (add_event dumps_plain sample_store run_command).2
    = [{| args := doc; pc := Waiting |}]
    ∧ dict_get run_command "action" = Some (PStr "run_command")
    ∧ dict_get (extra_info doc) "id" = Some (PStr "run_command")
    ∧ dict_get (extra_info doc) "type" = Some (PStr "action")
    ∧ dict_get (extra_info doc) "type" ≠ dict_get run_command "action".
Proof.
  eexists. split; [reflexivity|]. by repeat split.
Qed.

(** ** The retry policy *)



Section RetryProperties.

Variable env : environment.
Variable A : Type.
Variable fn : Z → result A.

Lemma num_retries_pos : 1 ≤ num_retries env.
Proof. unfold num_retries. destruct (get_embeddings_is_wrapped env); lia. Qed.

Lemma call_spec (fuel : nat) (a : Z) :
  1 ≤ a ≤ num_retries env →
  num_retries env - a < Z.of_nat fuel →
  ∃ tr k,
    a ≤ k ≤ num_retries env
    ∧ Tenacity.call (retry_policy env) fn fuel a = (tr, Some (fn k))
    ∧ attempts tr = seqZ a (k - a + 1)
    ∧ sleeps tr
      = (λ j : Z, Tenacity.wait_exponential 3 300 j) <$> seqZ a (k - a)
    ∧ (∀ j, a ≤ j < k →
         ∃ e, fn j = Raise e ∧ retry_if_exception_type e = true)
    ∧ (k < num_retries env → final (fn k))
    ∧ slept tr
      = (λ j : Z, Tenacity.uniform 3 (Tenacity.wait_exponential 3 300 j)
                    (random_draw env j)) <$> seqZ a (k - a).
Proof.
  revert a. induction fuel as [|fuel IH]; intros a Ha Hfuel; [lia|].
  assert (seqZ a (a - a + 1) = [a]) as Hone
    by (by replace (a - a + 1) with 1 by lia).
  assert (seqZ a (a - a) = []) as Hnone
    by (by replace (a - a) with 0 by lia).
  simpl. destruct (fn a) as [x|e] eqn:Hfn.
  { exists [GetEmbeddings a], a. rewrite Hfn, Hone, Hnone. simpl.
    split; [lia|]. do 3 (split; [done|]). split; [intros; lia | done]. }
  destruct (retry_if_exception_type e) eqn:Hretry; simpl.
  2:{ exists [GetEmbeddings a], a. rewrite Hfn, Hone, Hnone. simpl.
      split; [lia|]. do 3 (split; [done|]). split; [intros; lia | done]. }
  unfold Tenacity.stop_after_attempt.
  destruct (num_retries env <=? a) eqn:Hstop.
  { apply Z.leb_le in Hstop.
    exists [GetEmbeddings a; LoggerError e a], a.
    rewrite Hfn, Hone, Hnone. simpl.
    split; [lia|]. do 3 (split; [done|]).
    split; [intros; lia|]. split; [intros; lia | done]. }
  apply Z.leb_gt in Hstop.
  destruct (IH (a + 1))
    as (tr & k & Hk & Hcall & Hatt & Hsl & Hearly & Hfin & Hslept);
    [lia | lia |].
  rewrite Hcall. eexists _, k. split; [lia|]. split; [done|]. simpl.
  split; [|split; [|split; [|split]]].
  - rewrite Hatt, (seqZ_cons a) by lia. do 2 f_equal; lia.
  - rewrite Hsl, (seqZ_cons a (k - a)) by lia. simpl. do 3 f_equal; lia.
  - intros j Hj. destruct (decide (j = a)) as [->|]; [eauto|].
    apply Hearly. lia.
  - done.
  - rewrite Hslept, (seqZ_cons a (k - a)) by lia. simpl. do 3 f_equal; lia.
Qed.


End RetryProperties.



(** ** Search and construction *)





(** C9: the constructor raises [ImportError] with nothing done before it
    exactly when the import block at the top of the module failed, that is
    when one of its five modules is missing; otherwise its first act is to
    create the chromadb client, so whatever it raises later comes after
    that. *)
Theorem init_raises_import_error_first (env : environment)
    (cfg : LLMConfig) (n : option Z) :
  ((∃ msg, __init__ env cfg n = ([], Raise (ImportError msg)))
   ↔ LLAMA_INDEX_AVAILABLE env = false)
  ∧ (LLAMA_INDEX_AVAILABLE env = false
     ↔ false ∈ [has_chromadb env; has_llama_index_embeddings_openai env;
                has_llama_index_core env;
                has_llama_index_core_retrievers env;
                has_llama_index_vector_stores_chroma env])
  ∧ (LLAMA_INDEX_AVAILABLE env = true →
     ∃ tr r, __init__ env cfg n = (ChromadbClient false :: tr, r)).
Proof.
  assert (LLAMA_INDEX_AVAILABLE env = true →
          ∃ tr r, __init__ env cfg n = (ChromadbClient false :: tr, r))
    as Havail.
  { intros Ha. unfold __init__, library_call. rewrite Ha. simpl.
    destruct (chromadb_Client_raises env); [by eexists _, _|].
    destruct (get_or_create_collection_raises env); [by eexists _, _|].
    destruct (ChromaVectorStore_raises env); [by eexists _, _|].
    destruct (get_embedding_model env _ cfg) as [m|]; [|by eexists _, _].
    destruct (from_vector_store_raises env m); [by eexists _, _|].
    destruct (default 1 n <? 0); by eexists _, _. }
  split; [|split; [|done]].
  - split.
    + intros [msg Hinit].
      destruct (LLAMA_INDEX_AVAILABLE env) eqn:Ha; [|done].
      destruct (Havail eq_refl) as (tr & r & Hinit'). congruence.
    + intros Ha. unfold __init__. rewrite Ha. by eexists.
  - unfold LLAMA_INDEX_AVAILABLE. rewrite !elem_of_cons, elem_of_nil.
    destruct (has_chromadb env), (has_llama_index_embeddings_openai env),
      (has_llama_index_core env), (has_llama_index_core_retrievers env),
      (has_llama_index_vector_stores_chroma env); simpl;
      (split; [intros H; try discriminate H; auto 10 | intuition congruence]).
Qed.

(** With the ollama package missing, a supported ollama strategy raises
    [ImportError] too, but only after the chromadb client exists. *)
Example init_late_import_error :
  __init__ sample_environment
    {| embedding_model := Some "llama2"%string; embedding_base_url := None;
       embedding_deployment_name := None; api_key := None; base_url := None;
       api_version := None |} None
  = ([ChromadbClient false; GetOrCreateCollection "memories";
      NewChromaVectorStore "memories"],
     Raise (ImportError "llama_index.embeddings.ollama")).
Proof. reflexivity. Qed.

(** * Further properties *)

(** ** The event base class *)

Section EventFurther.
Import Event.

Ltac backing_field := apply (bool_decide_unpack _); by vm_compute.

(** X1: an assignment to [timeout] is read back by the [timeout] accessor,
    on every instance, and changes what no other accessor returns. *)
Theorem timeout_set_then_get (self : instance) (value : pyval) :
  ∃ self' : instance,
    timeout_setter self value = Ok self'
    ∧ timeout self' = Ok value
    ∧ message self' = message self
    ∧ id self' = id self
    ∧ timestamp self' = timestamp self
    ∧ source self' = source self
    ∧ cause self' = cause self.
Proof.
  eexists. split; [apply timeout_setter_eq|].
  unfold timeout, message, id, timestamp, source, cause.
  rewrite !accessor_data by backing_field.
  case_bool_decide; by simplify_map_eq.
Qed.

Lemma timeout_setter_twice (self : instance) (v1 v2 : pyval) :
  (self' ← timeout_setter self v1; timeout_setter self' v2)
  = timeout_setter self v2.
Proof.
  rewrite (timeout_setter_eq self v1). simpl.
  rewrite !timeout_setter_eq. f_equal.
  destruct (decide (is_Some (self !! "blocking"))) as [Hb|Hb].
  - rewrite !(bool_decide_eq_true_2 _ Hb), lookup_insert_eq.
    rewrite bool_decide_eq_true_2 by (by eexists).
    apply map_eq. intros k.
    destruct (decide (k = "blocking"%string)) as [->|];
      [by simplify_map_eq|].
    destruct (decide (k = "_timeout"%string)) as [->|]; by simplify_map_eq.
  - rewrite !(bool_decide_eq_false_2 _ Hb), lookup_insert_ne by done.
    rewrite (bool_decide_eq_false_2 _ Hb).
    by rewrite insert_insert_eq.
Qed.

(** X2: of several assignments to [timeout] in a row only the last one
    shows: the instance ends up exactly as if that one had been made
    alone. *)
Theorem timeout_writes_last_wins (self : instance) (vs : list pyval)
    (v : pyval) :
  timeout_writes self (vs ++ [v]) = timeout_setter self v.
Proof.
  revert self. induction vs as [|v0 vs IH]; intros self; simpl.
  - by destruct (timeout_setter self v).
  - rewrite <- (timeout_setter_twice self v0 v).
    destruct (timeout_setter self v0) as [self'|e]; simpl; [apply IH | done].
Qed.

(** X3: an assignment to [timeout] adds the backing field and nothing else
    to the attributes of the instance, and removes none; an instance
    without [blocking] does not get one. *)
Theorem timeout_setter_attributes (self : instance) (value : pyval) :
  ∃ self' : instance,
    timeout_setter self value = Ok self'
    ∧ dom self' = {["_timeout"%string]} ∪ dom self.
Proof.
  eexists. split; [apply timeout_setter_eq|].
  case_bool_decide as Hb.
  - rewrite !dom_insert_L. apply elem_of_dom in Hb.
    apply set_eq. intros x. rewrite !elem_of_union, !elem_of_singleton.
    split; [intros [->|?]; auto | auto].
  - by rewrite dom_insert_L.
Qed.

End EventFurther.

(** ** The retry policy, further *)

Section RetryFurther.

Variable env : environment.
Variable A : Type.
Variable fn : Z → result A.

Lemma retried_failure_eq (j : Z) (e : exn) :
  fn j = Raise e →
  retried_failure fn j = if retry_if_exception_type e then Some (e, j) else None.
Proof. intros H. unfold retried_failure. by rewrite H. Qed.

Lemma call_logged (fuel : nat) (a : Z) :
  logged (Tenacity.call (retry_policy env) fn fuel a).1
  = omap (retried_failure fn)
      (attempts (Tenacity.call (retry_policy env) fn fuel a).1).
Proof.
  revert a. induction fuel as [|fuel IH]; intros a; [done|].
  cbn [Tenacity.call]. destruct (fn a) as [x|e] eqn:Hfn.
  { cbn. unfold retried_failure. by rewrite Hfn. }
  pose proof (retried_failure_eq a e Hfn) as Hrf.
  cbn [Tenacity.retry retry_policy].
  destruct (retry_if_exception_type e) eqn:Hretry; cbn [negb].
  2:{ cbn. by rewrite Hrf. }
  destruct (Tenacity.stop (retry_policy env) a).
  { cbn. by rewrite Hrf. }
  specialize (IH (a + 1)).
  destruct (Tenacity.call (retry_policy env) fn fuel (a + 1)) as [tr res].
  cbn in *. by rewrite Hrf, IH.
Qed.

(** X4: the failures that [attempt_on_error] logs are exactly the attempts
    that failed with a retried error class, each with its attempt number and
    in order.  A successful attempt logs nothing, an error of another class
    is raised without being logged, and the failure that exhausts the
    attempts is logged before it is re-raised. *)
Theorem logged_failures_are_the_retried_ones (fuel : nat) :
  logged (wrapper_get_embeddings env fn fuel).1
  = omap (retried_failure fn)
      (attempts (wrapper_get_embeddings env fn fuel).1).
Proof. apply call_logged. Qed.

(** X5: when the library's function has no [__wrapped__], the import warns
    that the limits cannot be set and the wrapper makes one attempt only: it
    returns or raises what that attempt did, and never sleeps. *)
Theorem no_retry_without_wrapped (fuel : nat) :
  get_embeddings_is_wrapped env = false →
  attempts (wrapper_get_embeddings env fn (S fuel)).1 = [1]
  ∧ sleeps (wrapper_get_embeddings env fn (S fuel)).1 = []
  ∧ (wrapper_get_embeddings env fn (S fuel)).2 = Some (fn 1)
  ∧ (LLAMA_INDEX_AVAILABLE env = true →
     module_import env = [LoggerWarning "Cannot set custom retry limits."]).
Proof.
  intros Hw. unfold wrapper_get_embeddings, module_import. simpl.
  unfold num_retries. rewrite Hw.
  destruct (fn 1) as [x|e]; simpl.
  - repeat split; try done. by intros ->.
  - destruct (retry_if_exception_type e); simpl;
      (repeat split; try done; by intros ->).
Qed.

(** X6: whatever the provider does, the sleeps of one wrapped call add up
    to at most 514 seconds, one sleep fewer than there were attempts. *)
Theorem total_sleep_is_bounded (fuel : nat) :
  (Z.to_nat (num_retries env) ≤ fuel)%nat →
  foldr Z.add 0 (sleeps (wrapper_get_embeddings env fn fuel).1) ≤ 514
  ∧ S (length (sleeps (wrapper_get_embeddings env fn fuel).1))
    = length (attempts (wrapper_get_embeddings env fn fuel).1).
Proof.
  intros Hfuel. pose proof (num_retries_pos env) as Hpos.
  assert (num_retries env ≤ 10) as Hmax
    by (unfold num_retries; destruct (get_embeddings_is_wrapped env); lia).
  destruct (call_spec env A fn fuel 1)
    as (tr & k & Hk & Hcall & Hatt & Hsl & _); [lia | lia |].
  unfold wrapper_get_embeddings. rewrite Hcall. simpl.
  rewrite Hatt, Hsl, length_fmap, !length_seqZ. split; [|lia].
  assert (k = 1 ∨ k = 2 ∨ k = 3 ∨ k = 4 ∨ k = 5 ∨ k = 6 ∨ k = 7 ∨ k = 8
          ∨ k = 9 ∨ k = 10) as Hcases by lia.
  repeat (destruct Hcases as [->|Hcases]); try subst k; by vm_compute.
Qed.

End RetryFurther.

(** Without [__wrapped__] a rate-limited call fails on its only attempt. *)
Lemma no_retry_without_wrapped_witness :
  attempts (wrapper_get_embeddings unwrapped_environment
              throttled_provider 1).1 = [1]
  ∧ (wrapper_get_embeddings unwrapped_environment throttled_provider 1).2
    = Some (Raise (OpenAIError RateLimitError)).
Proof.
  destruct (no_retry_without_wrapped unwrapped_environment _
              throttled_provider 0 eq_refl) as (Hatt & _ & Hres & _).
  split; [exact Hatt | exact Hres].
Defined.

(** Always rate limited, the default policy sleeps 3, 3, 4, 8, ..., 256. *)
Lemma total_sleep_is_bounded_witness :
  foldr Z.add 0
    (sleeps (wrapper_get_embeddings sample_environment
               throttled_provider 10).1) ≤ 514
  ∧ sleeps (wrapper_get_embeddings sample_environment throttled_provider 10).1
    = [3; 3; 4; 8; 16; 32; 64; 128; 256].
Proof.
  split.
  - apply (total_sleep_is_bounded sample_environment _ throttled_provider 10).
    vm_compute. lia.
  - reflexivity.
Defined.

(** ** The embedding loader and the constructor, further *)

Lemma supported_models_are_not_none (s : string) :
  s ∈ supported_ollama_embed_models → lower s ≠ "none"%string.
Proof.
  unfold supported_ollama_embed_models.
  rewrite !elem_of_cons, elem_of_nil.
  intros H; repeat (destruct H as [->|H]; [by vm_compute|]); done.
Qed.

Lemma construct_ok (env : environment) (m : embed_model)
    (r : option embed_model) :
  construct env m = Ok r →
  r = Some m ∧ embedding_constructor_raises env m = None.
Proof.
  unfold construct. destruct (embedding_constructor_raises env m); [done|].
  by intros [= <-].
Qed.

Lemma construct_raises (env : environment) (m : embed_model) (e : exn) :
  construct env m = Raise e → embedding_constructor_raises env m = Some e.
Proof.
  unfold construct. destruct (embedding_constructor_raises env m); [|done].
  by intros [= <-].
Qed.

(** X7: the loader answers "no embedding model" exactly for a strategy that
    spells none in any mix of upper and lower case; for such a strategy it
    imports nothing and constructs nothing, so it cannot fail. *)
Theorem no_embedding_iff_none (env : environment) (strategy : option string)
    (cfg : LLMConfig) :
  get_embedding_model env strategy cfg = Ok None
  ↔ ∃ s, strategy = Some s ∧ lower s = "none"%string.
Proof.
  unfold get_embedding_model, import_module. split.
  - destruct (strategy_in strategy supported_ollama_embed_models).
    { destruct (has_llama_index_embeddings_ollama env); simpl; [|done].
      intros Hc. by apply construct_ok in Hc as [? _]. }
    case_bool_decide.
    { destruct (has_llama_index_embeddings_openai env); simpl; [|done].
      intros Hc. by apply construct_ok in Hc as [? _]. }
    case_bool_decide.
    { destruct (has_llama_index_embeddings_azure_openai env); simpl; [|done].
      intros Hc. by apply construct_ok in Hc as [? _]. }
    destruct strategy as [s|].
    + case_bool_decide; [eauto|].
      destruct (has_llama_index_embeddings_huggingface env); simpl; [|done].
      intros Hc. by apply construct_ok in Hc as [? _].
    + destruct (has_llama_index_embeddings_huggingface env); simpl; [|done].
      intros Hc. by apply construct_ok in Hc as [? _].
  - intros (s & -> & Hnone). simpl.
    rewrite bool_decide_eq_false_2
      by (intros Hin; by apply supported_models_are_not_none in Hin).
    rewrite bool_decide_eq_false_2
      by (intros [= ->]; by vm_compute in Hnone).
    rewrite bool_decide_eq_false_2
      by (intros [= ->]; by vm_compute in Hnone).
    by rewrite bool_decide_eq_true_2.
Qed.

Lemma loader_raises (env : environment) (strategy : option string)
    (cfg : LLMConfig) (e : exn) :
  get_embedding_model env strategy cfg = Raise e →
   (strategy_in strategy supported_ollama_embed_models = true
    ∧ (has_llama_index_embeddings_ollama env = false
       ∧ e = ImportError "llama_index.embeddings.ollama"
       ∨ has_llama_index_embeddings_ollama env = true
         ∧ embedding_constructor_raises env
             (OllamaEmbedding (default "" strategy)
                (embedding_base_url cfg) 0) = Some e))
   ∨ (strategy = Some "openai"%string
      ∧ (has_llama_index_embeddings_openai env = false
         ∧ e = ImportError "llama_index.embeddings.openai"
         ∨ has_llama_index_embeddings_openai env = true
           ∧ embedding_constructor_raises env
               (OpenAIEmbedding "text-embedding-ada-002" (api_key cfg))
             = Some e))
   ∨ (strategy = Some "azureopenai"%string
      ∧ (has_llama_index_embeddings_azure_openai env = false
         ∧ e = ImportError "llama_index.embeddings.azure_openai"
         ∨ has_llama_index_embeddings_azure_openai env = true
           ∧ embedding_constructor_raises env
               (AzureOpenAIEmbedding "text-embedding-ada-002"
                  (embedding_deployment_name cfg) (api_key cfg)
                  (base_url cfg) (api_version cfg)) = Some e))
   ∨ (strategy_in strategy supported_ollama_embed_models = false
      ∧ strategy ≠ Some "openai"%string
      ∧ strategy ≠ Some "azureopenai"%string
      ∧ (has_llama_index_embeddings_huggingface env = false
         ∧ e = ImportError "llama_index.embeddings.huggingface"
         ∨ has_llama_index_embeddings_huggingface env = true
           ∧ embedding_constructor_raises env
               (HuggingFaceEmbedding "BAAI/bge-small-en-v1.5") = Some e)).
Proof.
  unfold get_embedding_model, import_module.
  destruct (strategy_in strategy supported_ollama_embed_models) eqn:Hin.
  { intros H. left. split; [done|].
    destruct (has_llama_index_embeddings_ollama env); simpl in H.
    - right. split; [done|]. by apply construct_raises.
    - left. by injection H as <-. }
  case_bool_decide as Hopenai.
  { intros H. right; left. split; [done|].
    destruct (has_llama_index_embeddings_openai env); simpl in H.
    - right. split; [done|]. by apply construct_raises.
    - left. by injection H as <-. }
  case_bool_decide as Hazure.
  { intros H. right; right; left. split; [done|].
    destruct (has_llama_index_embeddings_azure_openai env); simpl in H.
    - right. split; [done|]. by apply construct_raises.
    - left. by injection H as <-. }
  destruct (match strategy with
            | Some s => bool_decide (lower s = "none"%string)
            | None => false
            end); [done|].
  intros H. do 3 right. do 3 (split; [done|]).
  destruct (has_llama_index_embeddings_huggingface env); simpl in H.
  - right. split; [done|]. by apply construct_raises.
  - left. by injection H as <-.
Qed.

(** X8: the loader raises only what the one branch that the strategy
    selects raises: the [ImportError] of that branch's package when it is
    missing, or else what the constructor of that branch's backend raised.
    The packages and constructors of the other branches do not matter; and
    with the four packages installed and no constructor refusing its
    arguments the loader raises nothing. *)
Theorem loader_raises_what_its_branch_raises (env : environment)
    (strategy : option string) (cfg : LLMConfig) :
  (∀ e, get_embedding_model env strategy cfg = Raise e →
     (strategy_in strategy supported_ollama_embed_models = true
      ∧ (has_llama_index_embeddings_ollama env = false
         ∧ e = ImportError "llama_index.embeddings.ollama"
         ∨ has_llama_index_embeddings_ollama env = true
           ∧ embedding_constructor_raises env
               (OllamaEmbedding (default "" strategy)
                  (embedding_base_url cfg) 0) = Some e))
     ∨ (strategy = Some "openai"%string
        ∧ (has_llama_index_embeddings_openai env = false
           ∧ e = ImportError "llama_index.embeddings.openai"
           ∨ has_llama_index_embeddings_openai env = true
             ∧ embedding_constructor_raises env
                 (OpenAIEmbedding "text-embedding-ada-002" (api_key cfg))
               = Some e))
     ∨ (strategy = Some "azureopenai"%string
        ∧ (has_llama_index_embeddings_azure_openai env = false
           ∧ e = ImportError "llama_index.embeddings.azure_openai"
           ∨ has_llama_index_embeddings_azure_openai env = true
             ∧ embedding_constructor_raises env
                 (AzureOpenAIEmbedding "text-embedding-ada-002"
                    (embedding_deployment_name cfg) (api_key cfg)
                    (base_url cfg) (api_version cfg)) = Some e))
     ∨ (strategy_in strategy supported_ollama_embed_models = false
        ∧ strategy ≠ Some "openai"%string
        ∧ strategy ≠ Some "azureopenai"%string
        ∧ (has_llama_index_embeddings_huggingface env = false
           ∧ e = ImportError "llama_index.embeddings.huggingface"
           ∨ has_llama_index_embeddings_huggingface env = true
             ∧ embedding_constructor_raises env
                 (HuggingFaceEmbedding "BAAI/bge-small-en-v1.5") = Some e)))
  ∧ (has_llama_index_embeddings_ollama env = true
     ∧ has_llama_index_embeddings_openai env = true
     ∧ has_llama_index_embeddings_azure_openai env = true
     ∧ has_llama_index_embeddings_huggingface env = true
     ∧ (∀ m, embedding_constructor_raises env m = None) →
     ∃ m, get_embedding_model env strategy cfg = Ok m).
Proof.
  split; [intros e; apply loader_raises|].
  intros (H1 & H2 & H3 & H4 & Hc).
  destruct (get_embedding_model env strategy cfg) as [m|e] eqn:Hgem;
    [by eexists|].
  destruct (loader_raises _ _ _ _ Hgem)
    as [(_ & [(? & _)|(_ & ?)])|[(_ & [(? & _)|(_ & ?)])
       |[(_ & [(? & _)|(_ & ?)])|(_ & _ & _ & [(? & _)|(_ & ?)])]]];
    rewrite ?Hc in *; congruence.
Qed.

(** X9: the model the loader built tells which strategy asked for it: an
    ollama model only for a name of the allow-list, passed on as the model
    name with the configured base url; the hosted and the azure model only
    for their exact lower-case names; the local fallback for everything
    else, the absent strategy included. *)
Theorem loader_result_determines_strategy (env : environment)
    (strategy : option string) (cfg : LLMConfig) (m : embed_model) :
  get_embedding_model env strategy cfg = Ok (Some m) →
  match m with
  | OllamaEmbedding name url mirostat =>
      strategy = Some name ∧ name ∈ supported_ollama_embed_models
      ∧ url = embedding_base_url cfg ∧ mirostat = 0
  | OpenAIEmbedding model key =>
      strategy = Some "openai"%string
      ∧ model = "text-embedding-ada-002"%string ∧ key = api_key cfg
  | AzureOpenAIEmbedding model deployment key endpoint version =>
      strategy = Some "azureopenai"%string
      ∧ model = "text-embedding-ada-002"%string
      ∧ deployment = embedding_deployment_name cfg ∧ key = api_key cfg
      ∧ endpoint = base_url cfg ∧ version = api_version cfg
  | HuggingFaceEmbedding name =>
      name = "BAAI/bge-small-en-v1.5"%string
      ∧ strategy_in strategy supported_ollama_embed_models = false
      ∧ strategy ≠ Some "openai"%string
      ∧ strategy ≠ Some "azureopenai"%string
      ∧ ∀ s, strategy = Some s → lower s ≠ "none"%string
  end.
Proof.
  unfold get_embedding_model, import_module.
  destruct (strategy_in strategy supported_ollama_embed_models) eqn:Hin.
  { destruct (has_llama_index_embeddings_ollama env); simpl; [|done].
    intros Hc. apply construct_ok in Hc as [[= ->] _].
    destruct strategy as [s|]; [|done]. simpl in *.
    by apply bool_decide_eq_true in Hin. }
  case_bool_decide as Hopenai.
  { destruct (has_llama_index_embeddings_openai env); simpl; [|done].
    intros Hc. by apply construct_ok in Hc as [[= ->] _]. }
  case_bool_decide as Hazure.
  { destruct (has_llama_index_embeddings_azure_openai env); simpl; [|done].
    intros Hc. by apply construct_ok in Hc as [[= ->] _]. }
  destruct strategy as [s|].
  - case_bool_decide as Hnone; [done|].
    destruct (has_llama_index_embeddings_huggingface env); simpl; [|done].
    intros Hc. apply construct_ok in Hc as [[= ->] _].
    repeat (split; [done|]). by intros ? [= <-].
  - destruct (has_llama_index_embeddings_huggingface env); simpl; [|done].
    intros Hc. apply construct_ok in Hc as [[= ->] _]. by repeat split.
Qed.

(** With the ollama package installed and a base url configured, an
    allow-listed name gives the ollama model of that name. *)
Lemma loader_result_determines_strategy_witness :
  get_embedding_model unwrapped_environment (Some "bge-m3"%string)
    ollama_config
  = Ok (Some (OllamaEmbedding "bge-m3"
                (Some "http://localhost:11434"%string) 0))
  ∧ "bge-m3"%string ∈ supported_ollama_embed_models.
Proof.
  split; [reflexivity|].
  by destruct (loader_result_determines_strategy unwrapped_environment
                 (Some "bge-m3"%string) ollama_config
                 (OllamaEmbedding "bge-m3"
                    (Some "http://localhost:11434"%string) 0) eq_refl)
    as (_ & Hin & _).
Defined.

(** Without a base url the ollama constructor refuses its arguments, and a
    store for the strategy none gets no index. *)
Example loader_ollama_without_base_url :
  get_embedding_model unwrapped_environment (Some "bge-m3"%string)
    sample_config
  = Raise (ValidationError "base_url: Input should be a valid string").
Proof. reflexivity. Qed.

Example init_without_embedding_model :
  __init__ sample_environment
    {| embedding_model := Some "none"%string; embedding_base_url := None;
       embedding_deployment_name := None; api_key := None; base_url := None;
       api_version := None |} None
  = ([ChromadbClient false; GetOrCreateCollection "memories";
      NewChromaVectorStore "memories"; FromVectorStore "memories" None],
     Raise (ValueError "No API key found for OpenAI")).
Proof. reflexivity. Qed.

Lemma init_ok (env : environment) (cfg : LLMConfig) (n : option Z)
    (tr : list effect) (s : LongTermMemory) :
  __init__ env cfg n = (tr, Ok s) →
   LLAMA_INDEX_AVAILABLE env = true
   ∧ chromadb_Client_raises env = None
   ∧ get_or_create_collection_raises env = None
   ∧ ChromaVectorStore_raises env = None
   ∧ get_embedding_model env (embedding_model cfg) cfg
     = Ok (index_embed_model (index s))
   ∧ from_vector_store_raises env (index_embed_model (index s)) = None
   ∧ 0 ≤ default 1 n
   ∧ sema s = default 1 n ∧ thought_idx s = 0 ∧ _add_threads s = []
   ∧ inserted (index s) = []
   ∧ tr = [ChromadbClient false; GetOrCreateCollection "memories";
           NewChromaVectorStore "memories";
           FromVectorStore "memories" (index_embed_model (index s))].
Proof.
  unfold __init__, library_call.
  destruct (LLAMA_INDEX_AVAILABLE env); simpl; [|done].
  destruct (chromadb_Client_raises env); [done|].
  destruct (get_or_create_collection_raises env); [done|].
  destruct (ChromaVectorStore_raises env); [done|].
  destruct (get_embedding_model env (embedding_model cfg) cfg) as [m|];
    [|done].
  destruct (from_vector_store_raises env m) eqn:Hfvs; [done|].
  destruct (default 1 n <? 0) eqn:Hn; [done|].
  apply Z.ltb_ge in Hn. intros [= <- <-]. simpl. by rewrite Hfvs.
Qed.

(** X10: a constructor that returns has made its four library calls in
    order, each of which returned, and the store it returns is empty, with
    its counter at 0, all its permits free and its index built for the model
    the loader gave.  A negative permit count never gives a store: when
    everything before it went well, the semaphore raises [ValueError] after
    the client, the collection, the vector store and the index have been
    created. *)
Theorem init_outcomes (env : environment) (cfg : LLMConfig) (n : option Z) :
  (∀ tr s, __init__ env cfg n = (tr, Ok s) →
     LLAMA_INDEX_AVAILABLE env = true
     ∧ chromadb_Client_raises env = None
     ∧ get_or_create_collection_raises env = None
     ∧ ChromaVectorStore_raises env = None
     ∧ get_embedding_model env (embedding_model cfg) cfg
       = Ok (index_embed_model (index s))
     ∧ from_vector_store_raises env (index_embed_model (index s)) = None
     ∧ 0 ≤ default 1 n
     ∧ sema s = default 1 n ∧ thought_idx s = 0 ∧ _add_threads s = []
     ∧ inserted (index s) = []
     ∧ tr = [ChromadbClient false; GetOrCreateCollection "memories";
             NewChromaVectorStore "memories";
             FromVectorStore "memories" (index_embed_model (index s))])
  ∧ (default 1 n < 0 → ∀ tr s, __init__ env cfg n ≠ (tr, Ok s))
  ∧ (∀ m, default 1 n < 0 →
       LLAMA_INDEX_AVAILABLE env = true →
       chromadb_Client_raises env = None →
       get_or_create_collection_raises env = None →
       ChromaVectorStore_raises env = None →
       get_embedding_model env (embedding_model cfg) cfg = Ok m →
       from_vector_store_raises env m = None →
       __init__ env cfg n
       = ([ChromadbClient false; GetOrCreateCollection "memories";
           NewChromaVectorStore "memories"; FromVectorStore "memories" m],
          Raise (ValueError "semaphore initial value must be >= 0"))).
Proof.
  split; [intros tr s; apply init_ok|]. split.
  - intros Hn tr s Hinit. apply init_ok in Hinit. lia.
  - intros m Hn Ha H1 H2 H3 Hm Hfvs. unfold __init__, library_call.
    rewrite Ha, H1, H2, H3, Hm, Hfvs. simpl.
    by replace (default 1 n <? 0) with true by (symmetry; by apply Z.ltb_lt).
Qed.

(** ** The store and its workers, further *)

Lemma str_parses_back (z : Z) :
  NilZero.int_of_string (str z) = Some (Z.to_int z).
Proof.
  unfold str. apply NilZero.isi; destruct z as [|p|p]; simpl; try done;
    intros [= H]; by apply Unsigned.to_uint_nonnil in H.
Qed.

Lemma str_inj (a b : Z) : str a = str b → a = b.
Proof.
  intros H. pose proof (str_parses_back a) as Ha.
  rewrite H, str_parses_back in Ha. injection Ha as Ha.
  by rewrite <- (DecimalZ.of_to a), <- (DecimalZ.of_to b), Ha.
Qed.

Section WorkersFurther.

Variable dumps : pyval → string.

Lemma run_invariant (P : LongTermMemory → Prop) :
  (∀ s s' l, P s → step dumps s l = Some s' → P s') →
  ∀ ls s s', P s → run dumps s ls = Some s' → P s'.
Proof.
  intros Hstep ls. induction ls as [|l ls IH]; intros s s' HP Hrun.
  - by simplify_eq/=.
  - simpl in Hrun. destruct (step dumps s l) as [mid|] eqn:Hl; [|done].
    simpl in Hrun. eauto.
Qed.

Lemma run_app (ls1 ls2 : list label) (s : LongTermMemory) :
  run dumps s (ls1 ++ ls2) = (s' ← run dumps s ls1; run dumps s' ls2).
Proof.
  revert s. induction ls1 as [|l ls1 IH]; intros s; [done|].
  simpl. destruct (step dumps s l); [apply IH | done].
Qed.

Ltac worker_step Hstep Hth Hpc :=
  match type of Hstep with
  | context [_add_threads ?self !! ?i] =>
      destruct (_add_threads self !! i) as [th|] eqn:Hth;
      [simpl in Hstep; destruct (pc th) eqn:Hpc; try done | done]
  end.

(** X11: a document reaches the index, and with it any search, only when
    its worker's [insert] returns: that step appends the worker's document
    to the index, while the call of [add_event], taking or giving back a
    permit, and an [insert] that raises leave every search as it was. *)
Theorem search_changes_only_when_insert_returns (s s' : LongTermMemory)
    (l : label) :
  step dumps s l = Some s' →
  match l with
  | Insert i None =>
      ∃ th, _add_threads s !! i = Some th ∧ pc th = Inserting
        ∧ inserted (index s') = inserted (index s) ++ [args th]
  | _ =>
      ∀ retrieve query k,
        search retrieve s' query k = search retrieve s query k
  end.
Proof.
  intros Hstep. destruct l as [ev|i|i [e|]|i]; simpl in Hstep.
  - rewrite add_event_unfold in Hstep. by simplify_eq.
  - unfold _add_doc_enter in Hstep. worker_step Hstep Hth Hpc.
    destruct (0 <? sema s); by simplify_eq.
  - unfold _add_doc_insert in Hstep. worker_step Hstep Hth Hpc.
    by simplify_eq.
  - unfold _add_doc_insert in Hstep. worker_step Hstep Hth Hpc.
    simplify_eq. by exists th.
  - unfold _add_doc_exit in Hstep. worker_step Hstep Hth Hpc.
    by simplify_eq.
Qed.

(** *** Document ids *)

Lemma numbered_doc_ids (evs : list event) (s : LongTermMemory) :
  numbered dumps evs s →
  doc_id <$> (args <$> _add_threads s)
  = (λ i : nat, str (Z.of_nat i)) <$> seq 0 (length evs).
Proof.
  intros [_ ->]. rewrite fmap_imap.
  exact (imap_seq_0 evs (λ i : nat, str (Z.of_nat i))).
Qed.

Lemma fresh_run_numbered (env : environment) (cfg : LLMConfig)
    (n : option Z) (tr : list effect) (s0 s : LongTermMemory)
    (ls : list label) :
  __init__ env cfg n = (tr, Ok s0) → run dumps s0 ls = Some s →
  numbered dumps (calls ls) s.
Proof.
  intros Hinit Hrun.
  destruct (init_fresh _ _ _ _ _ Hinit) as (_ & _ & Hidx & Hthreads & _).
  assert (numbered dumps [] s0) as Hinv0.
  { unfold numbered. by rewrite Hidx, Hthreads. }
  exact (run_numbered dumps _ _ _ _ Hinv0 Hrun).
Qed.

(** X12: the document ids of a store are unique, as the docstring of
    [add_event] promises: whatever the interleaving, two different calls
    got different ids, and the id of call number [i] reads back as [i]. *)
Theorem doc_ids_are_unique (env : environment) (cfg : LLMConfig)
    (n : option Z) (tr : list effect) (s0 s : LongTermMemory)
    (ls : list label) :
  __init__ env cfg n = (tr, Ok s0) →
  run dumps s0 ls = Some s →
  NoDup (doc_id <$> (args <$> _add_threads s))
  ∧ ∀ (i : nat) th, _add_threads s !! i = Some th →
      Z.of_int <$> NilZero.int_of_string (doc_id (args th))
      = Some (Z.of_nat i).
Proof.
  intros Hinit Hrun.
  pose proof (fresh_run_numbered _ _ _ _ _ _ _ Hinit Hrun) as Hnum.
  pose proof (numbered_doc_ids _ _ Hnum) as Hids. split.
  - rewrite Hids. apply NoDup_fmap_2; [|apply NoDup_seq].
    intros i j Hij. apply str_inj in Hij. lia.
  - intros i th Hth.
    pose proof (f_equal (.!! i) Hids) as Hi. simpl in Hi.
    rewrite !list_lookup_fmap, Hth in Hi. simpl in Hi.
    destruct (seq 0 (length (calls ls)) !! i) as [j|] eqn:Hj; [|done].
    apply lookup_seq in Hj as [-> _]. simpl in Hi. injection Hi as ->.
    rewrite str_parses_back. simpl. by rewrite DecimalZ.of_to.
Qed.

(** *** What the index holds *)

Lemma written_set_pc (l : list Thread) (i : nat) (th : Thread)
    (pc' : thread_pc) :
  l !! i = Some th →
  (if has_written (pc th) then [args th] else [])
    ++ (args <$> filter (λ th, has_written (pc th) = true)
                   (alter (λ th, {| args := args th; pc := pc' |}) i l))
  ≡ₚ (if has_written pc' then [args th] else [])
       ++ (args <$> filter (λ th, has_written (pc th) = true) l).
Proof.
  revert i. induction l as [|x l IH]; intros [|i] Hi; simplify_eq/=.
  - rewrite !filter_cons. simpl.
    destruct (decide (has_written pc' = true)) as [->|Hn1],
      (decide (has_written (pc th) = true)) as [->|Hn2]; simpl; try done.
    + by destruct (has_written (pc th)).
    + by destruct (has_written pc').
    + by destruct (has_written pc'), (has_written (pc th)).
  - rewrite !filter_cons. specialize (IH _ Hi).
    destruct (decide (has_written (pc x) = true)); [|done].
    rewrite !fmap_cons, <- !Permutation_middle. by f_equiv.
Qed.

Lemma step_index_is_written (s s' : LongTermMemory) (l : label) :
  index_is_written s → step dumps s l = Some s' → index_is_written s'.
Proof.
  unfold index_is_written, written_documents. intros Hinv Hstep.
  destruct l as [ev|i|i [e|]|i]; simpl in Hstep.
  - rewrite add_event_unfold in Hstep. simplify_eq.
    cbn [_add_threads index snd]. by rewrite filter_app, fmap_app, app_nil_r.
  - unfold _add_doc_enter in Hstep. worker_step Hstep Hth Hpc.
    destruct (0 <? sema s); simplify_eq. cbn [_add_threads index set_pc set_sema].
    pose proof (written_set_pc _ _ _ Inserting Hth) as Hw.
    rewrite Hpc in Hw. simpl in Hw. by rewrite Hw.
  - unfold _add_doc_insert in Hstep. worker_step Hstep Hth Hpc.
    simplify_eq. cbn [_add_threads index set_pc].
    pose proof (written_set_pc _ _ _ (Leaving (Some e)) Hth) as Hw.
    rewrite Hpc in Hw. simpl in Hw. by rewrite Hw.
  - unfold _add_doc_insert in Hstep. worker_step Hstep Hth Hpc.
    simplify_eq. cbn [_add_threads index set_pc index_insert inserted].
    pose proof (written_set_pc _ _ _ (Leaving None) Hth) as Hw.
    rewrite Hpc in Hw. simpl in Hw. rewrite Hw, Hinv.
    by rewrite <- Permutation_cons_append.
  - unfold _add_doc_exit in Hstep. worker_step Hstep Hth Hpc.
    simplify_eq. cbn [_add_threads index set_pc set_sema].
    pose proof (written_set_pc _ _ _ (Terminated raised) Hth) as Hw.
    rewrite Hpc in Hw. simpl in Hw.
    destruct raised; simpl in Hw.
    + by rewrite Hw.
    + apply (inj (cons (args th))) in Hw. by rewrite Hw.
Qed.

(** X13: the index holds, in some order, exactly the documents of the
    workers whose [insert] returned.  So it holds no document that
    [add_event] did not build, none twice, never two with one id, and never
    more than there were calls. *)
Theorem index_holds_the_written_documents (env : environment)
    (cfg : LLMConfig) (n : option Z) (tr : list effect)
    (s0 s : LongTermMemory) (ls : list label) :
  __init__ env cfg n = (tr, Ok s0) →
  run dumps s0 ls = Some s →
  inserted (index s) ≡ₚ written_documents s
  ∧ NoDup (doc_id <$> inserted (index s))
  ∧ (length (inserted (index s)) ≤ length (calls ls))%nat.
Proof.
  intros Hinit Hrun.
  pose proof (fresh_run_numbered _ _ _ _ _ _ _ Hinit Hrun) as Hnum.
  destruct (init_fresh _ _ _ _ _ Hinit) as (_ & _ & _ & Hthreads & Hins).
  assert (index_is_written s0) as Hinv0.
  { unfold index_is_written, written_documents. by rewrite Hins, Hthreads. }
  pose proof (run_invariant _ step_index_is_written _ _ _ Hinv0 Hrun) as Hinv.
  unfold index_is_written in Hinv.
  assert (written_documents s `sublist_of` (args <$> _add_threads s)) as Hsub.
  { unfold written_documents. apply fmap_sublist, sublist_filter. }
  split; [done|]. split.
  - rewrite Hinv. eapply sublist_NoDup; [|by apply fmap_sublist, Hsub].
    rewrite (numbered_doc_ids _ _ Hnum).
    apply NoDup_fmap_2; [|apply NoDup_seq].
    intros i j Hij. apply str_inj in Hij. lia.
  - rewrite Hinv. apply sublist_length in Hsub.
    destruct Hnum as [_ Hdocs].
    by rewrite Hdocs, length_imap in Hsub.
Qed.

(** *** Permits *)

Lemma count_none (P : thread_pc → bool) (l : list Thread) :
  Forall (λ th, P (pc th) = false) l → count P l = 0%nat.
Proof.
  induction 1 as [|x l Hx _ IH]; [done|].
  rewrite count_cons, Hx, IH. done.
Qed.

Lemma count_some (P : thread_pc → bool) (l : list Thread) :
  count P l ≠ 0%nat → ∃ i th, l !! i = Some th ∧ P (pc th) = true.
Proof.
  unfold count. intros Hne.
  destruct (filter (λ th, P (pc th) = true) l) as [|th k] eqn:Hf; [done|].
  assert (th ∈ filter (λ th, P (pc th) = true) l) as Hin
    by (rewrite Hf; by left).
  apply list_elem_of_filter in Hin as [HP Hin].
  apply list_elem_of_lookup in Hin as [i Hi]. eauto.
Qed.

Lemma fresh_run_balanced (env : environment) (cfg : LLMConfig)
    (n : option Z) (tr : list effect) (s0 s : LongTermMemory)
    (ls : list label) :
  __init__ env cfg n = (tr, Ok s0) → run dumps s0 ls = Some s →
  permits_balanced (default 1 n) s.
Proof.
  intros Hinit Hrun.
  destruct (init_fresh _ _ _ _ _ Hinit) as (Hsema & Hn & _ & Hthreads & _).
  assert (permits_balanced (default 1 n) s0) as Hinv0.
  { unfold permits_balanced, permits_held. rewrite Hthreads, Hsema.
    split; [cbn; lia | done]. }
  exact (run_permits_balanced dumps _ _ _ _ Hinv0 Hrun).
Qed.

(** X14: no permit is ever lost.  Once every worker is done, all the
    permits are free again, also when inserts raised: leaving the [with]
    block gives the permit back on the way out of an exception too. *)
Theorem permits_are_all_returned (env : environment) (cfg : LLMConfig)
    (n : option Z) (tr : list effect) (s0 s : LongTermMemory)
    (ls : list label) :
  __init__ env cfg n = (tr, Ok s0) →
  run dumps s0 ls = Some s →
  Forall (λ th, ∃ raised, pc th = Terminated raised) (_add_threads s) →
  sema s = default 1 n.
Proof.
  intros Hinit Hrun Hdone.
  destruct (fresh_run_balanced _ _ _ _ _ _ _ Hinit Hrun) as [Hsum _].
  unfold permits_held in Hsum. rewrite count_none in Hsum; [lia|].
  eapply Forall_impl; [exact Hdone|]. by intros th [raised ->].
Qed.

Lemma count_none_lookup (P : thread_pc → bool) (l : list Thread) (i : nat)
    (th : Thread) :
  count P l = 0%nat → l !! i = Some th → P (pc th) = false.
Proof.
  revert i. induction l as [|x l IH]; intros i Hc Hi; [done|].
  rewrite count_cons in Hc. destruct i as [|i]; simplify_eq/=.
  - destruct (P (pc th)); [simpl in Hc; lia | done].
  - apply (IH i); [lia | done].
Qed.

(** X15: with at least one permit the workers cannot deadlock: as long as
    some worker has not finished, some worker can take its next step. *)
Theorem workers_never_deadlock (env : environment) (cfg : LLMConfig)
    (n : option Z) (tr : list effect) (s0 s : LongTermMemory)
    (ls : list label) (i : nat) (th : Thread) :
  __init__ env cfg n = (tr, Ok s0) →
  run dumps s0 ls = Some s →
  1 ≤ default 1 n →
  _add_threads s !! i = Some th →
  (∀ raised, pc th ≠ Terminated raised) →
  ∃ l s', is_worker_step l = true ∧ step dumps s l = Some s'.
Proof.
  intros Hinit Hrun Hn Hth Hlive.
  destruct (fresh_run_balanced _ _ _ _ _ _ _ Hinit Hrun) as [Hsum _].
  unfold permits_held in Hsum.
  destruct (decide (count holds_permit (_add_threads s) = 0%nat)) as [Hz|Hnz].
  - pose proof (count_none_lookup _ _ _ _ Hz Hth) as Hfree.
    destruct (pc th) as [| |r|r] eqn:Hpc; try done; [|by destruct (Hlive r)].
    exists (Enter i). eexists. split; [done|]. simpl.
    unfold _add_doc_enter. rewrite Hth. simpl. rewrite Hpc.
    by replace (0 <? sema s) with true by (symmetry; apply Z.ltb_lt; lia).
  - destruct (count_some _ _ Hnz) as (j & th' & Hth' & Hholds).
    destruct (pc th') as [| |r|r] eqn:Hpc; try done.
    + exists (Insert j None). eexists. split; [done|]. simpl.
      unfold _add_doc_insert. rewrite Hth'. simpl. by rewrite Hpc.
    + exists (Exit j). eexists. split; [done|]. simpl.
      unfold _add_doc_exit. rewrite Hth'. simpl. by rewrite Hpc.
Qed.

Lemma step_starved (s s' : LongTermMemory) (l : label) :
  starved s → step dumps s l = Some s' → starved s'.
Proof.
  unfold starved. intros (Hsema & Hins & Hall) Hstep.
  destruct l as [ev|i|i raised|i]; simpl in Hstep.
  - rewrite add_event_unfold in Hstep. simplify_eq.
    cbn [_add_threads index sema snd]. repeat split; try done.
    apply Forall_app. split; [done|]. by apply Forall_singleton.
  - unfold _add_doc_enter in Hstep. worker_step Hstep Hth Hpc.
    by rewrite Hsema in Hstep.
  - unfold _add_doc_insert in Hstep. worker_step Hstep Hth Hpc.
    pose proof (Forall_lookup_1 _ _ _ _ Hall Hth) as Hw. simpl in Hw.
    congruence.
  - unfold _add_doc_exit in Hstep. worker_step Hstep Hth Hpc.
    pose proof (Forall_lookup_1 _ _ _ _ Hall Hth) as Hw. simpl in Hw.
    congruence.
Qed.

(** X16: a store constructed with zero permits accepts every event and
    stores none: every worker waits at the semaphore for good, and the index
    stays empty whatever the schedule. *)
Theorem zero_permits_store_nothing (env : environment) (cfg : LLMConfig)
    (n : option Z) (tr : list effect) (s0 s : LongTermMemory)
    (ls : list label) :
  __init__ env cfg n = (tr, Ok s0) →
  run dumps s0 ls = Some s →
  default 1 n = 0 →
  inserted (index s) = []
  ∧ length (_add_threads s) = length (calls ls)
  ∧ Forall (λ th, pc th = Waiting) (_add_threads s).
Proof.
  intros Hinit Hrun Hn.
  destruct (init_fresh _ _ _ _ _ Hinit) as (Hsema & _ & _ & Hthreads & Hins).
  assert (starved s0) as Hinv0.
  { unfold starved. rewrite Hsema, Hn, Hins, Hthreads. by repeat split. }
  destruct (run_invariant _ step_starved _ _ _ Hinv0 Hrun)
    as (_ & Hempty & Hall).
  destruct (fresh_run_numbered _ _ _ _ _ _ _ Hinit Hrun) as [_ Hdocs].
  split; [done|]. split; [|done].
  by rewrite <- (length_fmap args), Hdocs, length_imap.
Qed.

(** *** Counting the steps *)

Lemma work_left_set_pc (l : list Thread) (i : nat) (th : Thread)
    (pc' : thread_pc) :
  l !! i = Some th →
  foldr (λ th acc, steps_left (pc th) + acc) 0
    (alter (λ th, {| args := args th; pc := pc' |}) i l)
  = foldr (λ th acc, steps_left (pc th) + acc) 0 l
    - steps_left (pc th) + steps_left pc'.
Proof.
  revert i. induction l as [|x l IH]; intros [|i] Hi; simplify_eq/=.
  - lia.
  - rewrite (IH _ Hi). lia.
Qed.

Lemma step_work_left (s s' : LongTermMemory) (l : label) :
  step dumps s l = Some s' →
  work_left s' = work_left s + (if is_worker_step l then -1 else 3).
Proof.
  unfold work_left. intros Hstep.
  destruct l as [ev|i|i raised|i]; simpl in Hstep.
  - rewrite add_event_unfold in Hstep. simplify_eq.
    cbn [_add_threads snd is_worker_step]. rewrite foldr_app. simpl.
    generalize (_add_threads s). intros l.
    induction l as [|x l IH]; simpl; lia.
  - unfold _add_doc_enter in Hstep. worker_step Hstep Hth Hpc.
    destruct (0 <? sema s); simplify_eq. cbn [_add_threads set_pc set_sema].
    rewrite (work_left_set_pc _ _ _ _ Hth), Hpc. simpl. lia.
  - unfold _add_doc_insert in Hstep. worker_step Hstep Hth Hpc.
    destruct raised; simplify_eq; cbn [_add_threads set_pc index_insert];
      rewrite (work_left_set_pc _ _ _ _ Hth), Hpc; simpl; lia.
  - unfold _add_doc_exit in Hstep. worker_step Hstep Hth Hpc.
    simplify_eq. cbn [_add_threads set_pc set_sema].
    rewrite (work_left_set_pc _ _ _ _ Hth), Hpc. simpl. lia.
Qed.

Lemma work_left_nonneg (s : LongTermMemory) : 0 ≤ work_left s.
Proof.
  unfold work_left. induction (_add_threads s) as [|x l IH]; simpl; [done|].
  destruct (pc x); simpl; lia.
Qed.

Lemma run_work_left (ls : list label) (s s' : LongTermMemory) :
  run dumps s ls = Some s' →
  Z.of_nat (worker_steps ls) + work_left s'
  = work_left s + 3 * Z.of_nat (length (calls ls)).
Proof.
  revert s. induction ls as [|l ls IH]; intros s Hrun.
  - simplify_eq/=. unfold worker_steps. simpl. lia.
  - simpl in Hrun. destruct (step dumps s l) as [mid|] eqn:Hl; [|done].
    simpl in Hrun. specialize (IH _ Hrun).
    apply step_work_left in Hl.
    unfold worker_steps in *. rewrite filter_cons, calls_cons, length_app.
    destruct l; simpl in *; lia.
Qed.

(** X17: every call of [add_event] costs its worker exactly three steps:
    the worker steps taken so far and those the unfinished workers have
    still to take add up to three times the number of calls, so no schedule
    makes a worker repeat a step. *)
Theorem three_steps_per_call (env : environment) (cfg : LLMConfig)
    (n : option Z) (tr : list effect) (s0 s : LongTermMemory)
    (ls : list label) :
  __init__ env cfg n = (tr, Ok s0) →
  run dumps s0 ls = Some s →
  Z.of_nat (worker_steps ls) + work_left s
  = 3 * Z.of_nat (length (calls ls))
  ∧ (worker_steps ls ≤ 3 * length (calls ls))%nat.
Proof.
  intros Hinit Hrun.
  destruct (init_fresh _ _ _ _ _ Hinit) as (_ & _ & _ & Hthreads & _).
  pose proof (run_work_left _ _ _ Hrun) as Hwork.
  pose proof (work_left_nonneg s) as Hpos.
  unfold work_left at 2 in Hwork. rewrite Hthreads in Hwork. simpl in Hwork.
  lia.
Qed.

(** *** Letting every worker finish *)

Lemma alter_last (f : Thread → Thread) (l : list Thread) (x : Thread) :
  alter f (length l) (l ++ [x]) = l ++ [f x].
Proof.
  rewrite <- (Nat.add_0_r (length l)). by rewrite alter_app_r.
Qed.

Lemma lookup_last (l : list Thread) (x : Thread) :
  (l ++ [x]) !! length l = Some x.
Proof. by apply list_lookup_middle. Qed.

Lemma serial_round (s : LongTermMemory) (ev : event) :
  0 < sema s →
  run dumps s
    [CallAddEvent ev; Enter (length (_add_threads s));
     Insert (length (_add_threads s)) None; Exit (length (_add_threads s))]
  = Some {|
      collection := collection s;
      index := {| vector_store := vector_store (index s);
                  index_embed_model := index_embed_model (index s);
                  inserted := inserted (index s)
                                ++ [document_at dumps (thought_idx s) ev] |};
      sema := sema s;
      thought_idx := thought_idx s + 1;
      _add_threads :=
        _add_threads s
          ++ [{| args := document_at dumps (thought_idx s) ev;
                 pc := Terminated None |}]
    |}.
Proof.
  intros Hsema. apply Z.ltb_lt in Hsema.
  set (doc := document_at dumps (thought_idx s) ev).
  set (l := _add_threads s).
  cbn [run step]. rewrite add_event_unfold. cbn [snd mbind option_bind].
  fold doc l.
  unfold _add_doc_enter at 1. cbn [_add_threads sema]. fold l.
  rewrite (lookup_last l {| args := doc; pc := Waiting |}).
  cbn [mbind option_bind pc]. rewrite Hsema.
  unfold set_pc at 1, set_sema at 1.
  cbn [_add_threads sema index collection thought_idx].
  rewrite (alter_last _ l {| args := doc; pc := Waiting |}).
  cbn [args pc mbind option_bind].
  unfold _add_doc_insert at 1. cbn [_add_threads].
  rewrite (lookup_last l {| args := doc; pc := Inserting |}).
  cbn [mbind option_bind pc args].
  unfold set_pc at 1, index_insert at 1.
  cbn [_add_threads sema index collection thought_idx inserted vector_store
       index_embed_model].
  rewrite (alter_last _ l {| args := doc; pc := Inserting |}).
  cbn [args pc mbind option_bind].
  unfold _add_doc_exit at 1. cbn [_add_threads].
  rewrite (lookup_last l {| args := doc; pc := Leaving None |}).
  cbn [mbind option_bind pc args].
  unfold set_pc at 1, set_sema at 1.
  cbn [_add_threads sema index collection thought_idx].
  rewrite (alter_last _ l {| args := doc; pc := Leaving None |}).
  cbn [args pc]. unfold set_sema, index_insert.
  cbn [_add_threads sema index collection thought_idx inserted vector_store
       index_embed_model].
  do 2 f_equal. lia.
Qed.

Lemma serial_run (evs : list event) (s : LongTermMemory) :
  0 < sema s →
  ∃ s',
    run dumps s (serial_schedule (length (_add_threads s)) evs) = Some s'
    ∧ sema s' = sema s
    ∧ _add_threads s'
      = _add_threads s
          ++ imap (λ i ev,
                     {| args := document_at dumps
                                  (thought_idx s + Z.of_nat i) ev;
                        pc := Terminated None |}) evs
    ∧ inserted (index s')
      = inserted (index s)
          ++ imap (λ i ev, document_at dumps (thought_idx s + Z.of_nat i) ev)
               evs.
Proof.
  revert s. induction evs as [|ev evs IH]; intros s Hsema.
  - exists s. simpl. by rewrite !app_nil_r.
  - cbn [serial_schedule]. rewrite run_app, (serial_round s ev Hsema).
    cbn [mbind option_bind].
    match goal with
    | |- ∃ s', run dumps ?s1 _ = _ ∧ _ =>
        destruct (IH s1) as (s' & Hrun & Hs & Hth & Hins); [done|]
    end.
    cbn [_add_threads sema index inserted thought_idx] in *.
    rewrite length_app, Nat.add_1_r in Hrun.
    exists s'. split; [done|]. split; [done|].
    assert (∀ i : nat, thought_idx s + 1 + Z.of_nat i
                       = thought_idx s + Z.of_nat (S i)) as Hshift
      by (intros; lia).
    rewrite Hth, Hins, <- !app_assoc. cbn [imap app].
    rewrite Z.add_0_r.
    split; (do 2 f_equal; apply imap_ext; intros i x _;
            unfold compose; cbv beta; by rewrite Hshift).
Qed.

(** X18: on a store with at least one permit, every event ends up in the
    index if each worker is let to finish: the schedule that runs each
    call's worker before the next call is always possible, and it leaves
    all permits free, every worker done, and the documents of the events in
    the index in call order. *)
Theorem serial_schedule_stores_every_event (env : environment)
    (cfg : LLMConfig) (n : option Z) (tr : list effect)
    (s0 : LongTermMemory) (evs : list event) :
  __init__ env cfg n = (tr, Ok s0) →
  1 ≤ default 1 n →
  ∃ s,
    run dumps s0 (serial_schedule 0 evs) = Some s
    ∧ sema s = default 1 n
    ∧ Forall (λ th, pc th = Terminated None) (_add_threads s)
    ∧ inserted (index s) = args <$> _add_threads s
    ∧ ∀ (i : nat) ev, evs !! i = Some ev →
        ∃ doc, inserted (index s) !! i = Some doc
          ∧ text doc = dumps (PDict ev)
          ∧ doc_id doc = str (Z.of_nat i)
          ∧ dict_get (extra_info doc) "idx" = Some (PInt (Z.of_nat i)).
Proof.
  intros Hinit Hn.
  destruct (init_fresh _ _ _ _ _ Hinit)
    as (Hsema & _ & Hidx & Hthreads & Hins).
  destruct (serial_run evs s0) as (s & Hrun & Hs & Hth & Hdocs); [lia|].
  rewrite Hthreads in Hrun. rewrite Hthreads, Hidx in Hth.
  rewrite Hins, Hidx in Hdocs. simpl in Hrun, Hth, Hdocs.
  exists s. split; [done|]. split; [lia|]. split; [|split].
  - rewrite Hth. apply Forall_lookup. intros i th Hi.
    rewrite list_lookup_imap in Hi.
    destruct (evs !! i); by simplify_eq/=.
  - rewrite Hth, Hdocs, fmap_imap. by apply imap_ext.
  - intros i ev Hev. rewrite Hdocs, list_lookup_imap, Hev. simpl.
    eexists. split; [done|]. by rewrite Z.add_0_l.
Qed.

End WorkersFurther.

(** *** Closed instances *)

(** The call of [add_event] itself leaves a search as it was. *)
Lemma search_changes_only_when_insert_returns_witness :
  ∃ s', step dumps_plain sample_store (CallAddEvent run_command) = Some s'
    ∧ search retrieve_newest s' "run" (Some 3)
      = search retrieve_newest sample_store "run" (Some 3).
Proof.
  eexists. split; [reflexivity|].
  exact (search_changes_only_when_insert_returns dumps_plain sample_store _
           (CallAddEvent run_command) eq_refl retrieve_newest "run"%string
           (Some 3)).
Defined.

Lemma doc_ids_are_unique_witness :
  ∃ s, run dumps_plain sample_store sample_schedule = Some s
    ∧ NoDup (doc_id <$> (args <$> _add_threads s)).
Proof.
  destruct (run dumps_plain sample_store sample_schedule) as [s|] eqn:Hrun;
    [|by vm_compute in Hrun].
  exists s. split; [reflexivity|].
  by destruct (doc_ids_are_unique dumps_plain sample_environment sample_config
                 None _ sample_store s sample_schedule eq_refl Hrun)
    as [Hnodup _].
Defined.

Lemma index_holds_the_written_documents_witness :
  ∃ s, run dumps_plain sample_store sample_full_schedule = Some s
    ∧ inserted (index s) ≡ₚ written_documents s
    ∧ (length (inserted (index s)) ≤ 3)%nat.
Proof.
  destruct (run dumps_plain sample_store sample_full_schedule) as [s|]
    eqn:Hrun; [|by vm_compute in Hrun].
  exists s. split; [reflexivity|].
  destruct (index_holds_the_written_documents dumps_plain sample_environment
              sample_config None _ sample_store s sample_full_schedule
              eq_refl Hrun)
    as (Hperm & _ & Hlen).
  split; [exact Hperm | exact Hlen].
Defined.

(** The insert of [failing_schedule] raises; its permit comes back. *)
Lemma permits_are_all_returned_witness :
  ∃ s, run dumps_plain sample_store failing_schedule = Some s
    ∧ pc <$> _add_threads s
      = [Terminated (Some (OpenAIError RateLimitError))]
    ∧ sema s = 1.
Proof.
  eexists. split; [vm_compute; reflexivity|]. split; [reflexivity|].
  match goal with
  | |- sema ?s = _ =>
      apply (permits_are_all_returned dumps_plain sample_environment
               sample_config None
               (__init__ sample_environment sample_config None).1
               sample_store s failing_schedule)
  end.
  - reflexivity.
  - vm_compute; reflexivity.
  - repeat constructor. by eexists.
Defined.

(** After [sample_schedule] the third worker waits while the first holds
    the permit; the first can go on. *)
Lemma workers_never_deadlock_witness :
  ∃ s l s', run dumps_plain sample_store sample_schedule = Some s
    ∧ pc <$> _add_threads s !! 2%nat = Some Waiting
    ∧ is_worker_step l = true
    ∧ step dumps_plain s l = Some s'.
Proof.
  destruct (run dumps_plain sample_store sample_schedule) as [s|] eqn:Hrun;
    [|by vm_compute in Hrun].
  pose proof Hrun as Hs. vm_compute in Hs. injection Hs as <-.
  destruct (workers_never_deadlock dumps_plain sample_environment
              sample_config None
              (__init__ sample_environment sample_config None).1
              sample_store _ sample_schedule 2%nat
              {| args := document_at dumps_plain 2 untagged; pc := Waiting |}
              eq_refl Hrun)
    as (l & s' & Hl & Hstep);
    [by vm_compute | reflexivity | by intros raised |].
  eexists _, l, s'. split; [reflexivity|]. split; [reflexivity|].
  split; [exact Hl | exact Hstep].
Defined.

(** A store constructed with [memory_max_threads = 0]. *)
Lemma zero_permits_store_nothing_witness :
  ∃ s, __init__ sample_environment sample_config (Some 0)
       = ((__init__ sample_environment sample_config None).1,
          Ok (set_sema sample_store 0))
    ∧ run dumps_plain (set_sema sample_store 0)
        [CallAddEvent run_command; CallAddEvent output_ok] = Some s
    ∧ inserted (index s) = []
    ∧ length (_add_threads s) = 2%nat.
Proof.
  eexists. split; [reflexivity|]. split; [vm_compute; reflexivity|].
  match goal with
  | |- inserted (index ?s) = _ ∧ _ =>
      destruct (zero_permits_store_nothing dumps_plain sample_environment
                  sample_config (Some 0)
                  (__init__ sample_environment sample_config None).1
                  (set_sema sample_store 0) s
                  [CallAddEvent run_command; CallAddEvent output_ok])
        as (Hempty & Hlen & _)
  end.
  - reflexivity.
  - vm_compute; reflexivity.
  - reflexivity.
  - split; [exact Hempty | exact Hlen].
Defined.

(** [sample_schedule] has four worker steps for three calls; five are
    left. *)
Lemma three_steps_per_call_witness :
  ∃ s, run dumps_plain sample_store sample_schedule = Some s
    ∧ Z.of_nat (worker_steps sample_schedule) + work_left s
      = 3 * Z.of_nat (length (calls sample_schedule))
    ∧ worker_steps sample_schedule = 4%nat.
Proof.
  destruct (run dumps_plain sample_store sample_schedule) as [s|] eqn:Hrun;
    [|by vm_compute in Hrun].
  exists s. split; [reflexivity|].
  destruct (three_steps_per_call dumps_plain sample_environment sample_config
              None _ sample_store s sample_schedule eq_refl Hrun)
    as [Hsum _].
  split; [exact Hsum | reflexivity].
Defined.

Lemma serial_schedule_stores_every_event_witness :
  ∃ s, run dumps_plain sample_store
         (serial_schedule 0 [run_command; output_ok; untagged]) = Some s
    ∧ sema s = 1
    ∧ inserted (index s) = args <$> _add_threads s.
Proof.
  destruct (serial_schedule_stores_every_event dumps_plain sample_environment
              sample_config None
              (__init__ sample_environment sample_config None).1
              sample_store [run_command; output_ok; untagged])
    as (s & Hrun & Hsema & _ & Hins & _).
  - reflexivity.
  - simpl. lia.
  - exists s. split; [exact Hrun|]. split; [exact Hsema | exact Hins].
Defined.
